(** * AIND-Recognizer: model selectors and recognizer

    A shallow embedding of [my_model_selectors.py] (the selection strategies
    [SelectorConstant], [SelectorBIC], [SelectorDIC] and [SelectorCV] built
    on [ModelSelector]), of the two classes of
    [my_model_selectors_org_working.py] that differ from it, and of
    [my_recognizer.py] ([recognize]).

    Python floats and numpy [float64] scalars are IEEE binary64 numbers and
    are embedded as primitive floats, with the kind of the scalar kept
    beside the value; Python exceptions are embedded with an explicit
    result type; an object is the record of the attributes its constructor
    binds, read by name through its instance dictionary; the collaborators
    (hmmlearn's [GaussianHMM], numpy's [log] and [mean], sklearn's [KFold],
    [asl_utils.combine_sequences] and the built-in [print], which writes to
    [sys.stdout] and may raise) are the fields of a record [Library].

    The definitions come first; the facts start at the heading Facts. *)

From Stdlib Require Import Floats ZArith List Ascii String DecimalString Bool Lia.
Import ListNotations.

Set Implicit Arguments.

(** ** Exceptions *)

Inductive exn : Type :=
| AttributeError
| KeyError
| NameError
| TypeError
| IndexError
| ValueError
| ZeroDivisionError
| OverflowError
| UnicodeEncodeError.

Inductive result (A : Type) : Type :=
| Return (a : A)
| Raise (e : exn).

Arguments Return {A} a.
Arguments Raise {A} e.

Definition bind {A B : Type} (c : result A) (k : A -> result B) : result B :=
  match c with
  | Return a => k a
  | Raise e => Raise e
  end.

Declare Scope py_scope.
Delimit Scope py_scope with py.
Notation "x <- c ;; k" := (bind c (fun x => k))
  (at level 61, c at next level, right associativity) : py_scope.
Notation "' pat <- c ;; k" := (bind c (fun x => match x with pat => k end))
  (at level 61, pat pattern, c at next level, right associativity) : py_scope.
Open Scope py_scope.

(** [try: c  except: h] with a bare [except] clause. *)
Definition try_except {A : Type} (c : result A) (h : A) : A :=
  match c with
  | Return a => a
  | Raise _ => h
  end.

(** [try: c  except: h] where the handler is a block of its own: what it
    raises leaves the statement. *)
Definition try_handle {A : Type} (c : result A) (h : result A) : result A :=
  match c with
  | Return a => Return a
  | Raise _ => h
  end.

Definition raises {A : Type} (c : result A) : Prop :=
  exists e, c = Raise e.

(** ** Binary64 comparisons

    [<] and [>] of Python floats are the IEEE comparisons: every comparison
    with a NaN is false. *)

Module F64.

Open Scope float_scope.

(** [x != x], the test [math.isnan] performs. *)
Definition is_nan (x : float) : bool := negb (x =? x).

(** Conversion of a Python [int]: round to nearest even. *)
Definition of_Z (z : Z) : float := SF2Prim (binary_normalize prec emax z 0 false).

(** Python raises [OverflowError] when the integer is too large for a float. *)
Definition of_int (z : Z) : result float :=
  let f := of_Z z in
  if abs f =? infinity then Raise OverflowError else Return f.

(** The order on finite numbers of one sign: exponent first, then mantissa. *)
Definition mag_lt (e1 : Z) (m1 : positive) (e2 : Z) (m2 : positive) : Prop :=
  (e1 < e2)%Z \/ (e1 = e2 /\ (m1 < m2)%positive).

(** [SFltb] as a proposition, by cases on the two numbers. *)
Definition sf_lt (a b : spec_float) : Prop :=
  match a, b with
  | S754_nan, _ | _, S754_nan => False
  | S754_infinity s1, S754_infinity s2 => s1 = true /\ s2 = false
  | S754_infinity s, _ => s = true
  | _, S754_infinity s => s = false
  | S754_finite s _ _, S754_zero _ => s = true
  | S754_zero _, S754_finite s _ _ => s = false
  | S754_zero _, S754_zero _ => False
  | S754_finite s1 m1 e1, S754_finite s2 m2 e2 =>
      match s1, s2 with
      | true, false => True
      | false, true => False
      | false, false => mag_lt e1 m1 e2 m2
      | true, true => mag_lt e2 m2 e1 m1
      end
  end.

Definition sf_nan (a : spec_float) : bool :=
  match a with S754_nan => true | _ => false end.

End F64.

(** ** Scalars

    A number met at run time is a Python [float] or a numpy [float64] scalar.
    Both hold a binary64 value and compare alike; they differ in true
    division by zero, which raises [ZeroDivisionError] for a Python float and
    yields an infinity or a NaN (with a warning) for a numpy scalar.  The
    result of a mixed operation is a numpy scalar. *)

Record scalar : Type := mk_scalar { val : float; is_numpy : bool }.

Definition pyfloat (x : float) : scalar := mk_scalar x false.
Definition npfloat (x : float) : scalar := mk_scalar x true.

Module Num.

Definition lift2 (op : float -> float -> float) (a b : scalar) : scalar :=
  mk_scalar (op (val a) (val b)) (is_numpy a || is_numpy b).

Definition add : scalar -> scalar -> scalar := lift2 PrimFloat.add.
Definition sub : scalar -> scalar -> scalar := lift2 PrimFloat.sub.
Definition mul : scalar -> scalar -> scalar := lift2 PrimFloat.mul.
Definition div : scalar -> scalar -> scalar := lift2 PrimFloat.div.

(** [a < b] and [a > b]. *)
Definition lt (a b : scalar) : bool := (val a <? val b)%float.
Definition gt (a b : scalar) : bool := lt b a.
Definition le (a b : scalar) : bool := (val a <=? val b)%float.
Definition is_nan (a : scalar) : bool := F64.is_nan (val a).

(** An [int] operand of a mixed operation. *)
Definition of_int (z : Z) : result scalar :=
  f <- F64.of_int z ;; Return (pyfloat f).

(** [z * a] for an [int] [z]. *)
Definition int_mul (z : Z) (a : scalar) : result scalar :=
  zf <- of_int z ;; Return (mul zf a).

(** [a / d] for an [int] [d]. *)
Definition truediv_int (a : scalar) (d : Z) : result scalar :=
  if (d =? 0)%Z && negb (is_numpy a) then Raise ZeroDivisionError
  else df <- of_int d ;; Return (div a df).

End Num.

(** ** Dictionaries

    A [dict] keeps its keys in insertion order; assigning to a key that is
    present keeps the key's place. *)

Section Dict.

Variables (K V : Type) (eqb : K -> K -> bool).

Fixpoint assoc_get (d : list (K * V)) (k : K) : result V :=
  match d with
  | [] => Raise KeyError
  | (k', v) :: d' => if eqb k k' then Return v else assoc_get d' k
  end.

Fixpoint assoc_set (d : list (K * V)) (k : K) (v : V) : list (K * V) :=
  match d with
  | [] => [(k, v)]
  | (k', v') :: d' =>
      if eqb k k' then (k', v) :: d' else (k', v') :: assoc_set d' k v
  end.

End Dict.

Definition dict (V : Type) : Type := list (string * V).
Definition dict_get {V : Type} (d : dict V) (k : string) : result V :=
  assoc_get String.eqb d k.
Definition dict_set {V : Type} (d : dict V) (k : string) (v : V) : dict V :=
  assoc_set String.eqb d k v.
Definition dict_keys {V : Type} (d : dict V) : list string := map fst d.
Definition dict_len {V : Type} (d : dict V) : Z := Z.of_nat (List.length d).

(** [range(a, b)] *)
Definition py_range (a b : Z) : list Z :=
  map (fun i => (a + Z.of_nat i)%Z) (seq 0 (Z.to_nat (b - a))).

(** ** Data *)

(** One realisation of a word: its frames, each a feature vector. *)
Definition sequence : Type := list (list float).

(** A two-dimensional numpy array: [shape] and the cells in row order. *)
Record ndarray : Type := mk_ndarray { shape : Z * Z; flat : list float }.

(** The pair [(X, lengths)] kept for a word. *)
Definition Xlengths : Type := (ndarray * list Z)%type.

(** ** Collaborators

    What the selectors and the recognizer import: hmmlearn's [GaussianHMM]
    ([hmm_fit n random_state X lengths] is
    [GaussianHMM(n_components=n, covariance_type="diag", n_iter=1000,
    random_state=random_state, verbose=False).fit(X, lengths)] and
    [hmm_score m X lengths] is [m.score(X, lengths)]), numpy's [log] and
    [mean], sklearn's [KFold] with its default number of splits,
    [asl_utils.combine_sequences], and the built-in [print]: [print text] is
    the call [print(text)], which hands the text to [sys.stdout] and returns
    [None], or raises what the stream raises ([UnicodeEncodeError] for a
    character outside its encoding, [ValueError] once it is closed).  No
    function here reads back what was written; whether the call raises is
    taken to depend on the text alone. *)

Record Library : Type := mk_Library {
  model : Type;
  hmm_fit : Z -> Z -> ndarray -> list Z -> result model;
  hmm_score : model -> ndarray -> list Z -> result scalar;
  np_log : Z -> float;
  np_mean : list scalar -> float;
  n_splits : nat;
  kfold_split : nat -> list sequence -> result (list (list nat * list nat));
  combine_sequences : list nat -> list sequence -> result Xlengths;
  print : string -> result unit
}.

(** ** [my_model_selectors.py] *)

(** The attributes [ModelSelector.__init__] binds. *)
Record ModelSelector : Type := mk_ModelSelector {
  words : dict (list sequence);
  hwords : dict Xlengths;
  sequences : list sequence;
  X : ndarray;
  lengths : list Z;
  this_word : string;
  n_constant : Z;
  min_n_components : Z;
  max_n_components : Z;
  random_state : Z;
  verbose : bool
}.

Definition ModelSelector_init
    (all_word_sequences : dict (list sequence))
    (all_word_Xlengths : dict Xlengths) (this_word : string)
    (n_constant min_n_components max_n_components random_state : Z)
    (verbose : bool) : result ModelSelector :=
  seqs <- dict_get all_word_sequences this_word ;;
  xl <- dict_get all_word_Xlengths this_word ;;
  Return (mk_ModelSelector all_word_sequences all_word_Xlengths seqs
            (fst xl) (snd xl) this_word n_constant min_n_components
            max_n_components random_state verbose).

(** The instance dictionary: reading an attribute that [__init__] did not
    bind raises [AttributeError]. *)
Inductive pyvalue : Type :=
| VInt (z : Z)
| VBool (b : bool)
| VStr (s : string)
| VInts (l : list Z)
| VArray (a : ndarray)
| VSeqs (l : list sequence)
| VWords (d : dict (list sequence))
| VHwords (d : dict Xlengths).

Definition vars (self : ModelSelector) : dict pyvalue :=
  [ ("words", VWords (words self));
    ("hwords", VHwords (hwords self));
    ("sequences", VSeqs (sequences self));
    ("X", VArray (X self));
    ("lengths", VInts (lengths self));
    ("this_word", VStr (this_word self));
    ("n_constant", VInt (n_constant self));
    ("min_n_components", VInt (min_n_components self));
    ("max_n_components", VInt (max_n_components self));
    ("random_state", VInt (random_state self));
    ("verbose", VBool (verbose self)) ]%string.

Definition getattr (self : ModelSelector) (name : string) : result pyvalue :=
  match dict_get (vars self) name with
  | Return v => Return v
  | Raise _ => Raise AttributeError
  end.

(** [str(z)] for an [int]: the decimal digits, after a minus sign when
    [z] is negative. *)
Definition str_of_int (z : Z) : string := NilZero.string_of_int (Z.to_int z).

(** ["model created for {} with {} states".format(self.this_word, num_states)]
    and ["failure on {} with {} states".format(self.this_word, num_states)]. *)
Definition created_message (self : ModelSelector) (num_states : Z) : string :=
  ("model created for " ++ this_word self ++ " with " ++ str_of_int num_states
   ++ " states")%string.

Definition failure_message (self : ModelSelector) (num_states : Z) : string :=
  ("failure on " ++ this_word self ++ " with " ++ str_of_int num_states
   ++ " states")%string.

(** The state counts a [for] statement draws from a value; of the values
    above only a list of integers provides them. *)
Definition iter_ints (v : pyvalue) : result (list Z) :=
  match v with
  | VInts l => Return l
  | _ => Raise TypeError
  end.

Section Selectors.

Variable L : Library.

(** [if self.verbose: print(text)] *)
Definition print_if_verbose (self : ModelSelector) (text : string) : result unit :=
  if verbose self then print L text else Return tt.

(** [base_model]: the fit and, when [self.verbose] is set, a line about it.
    Whatever the [try] block raises, the fit or the first [print], is
    caught and [None] is returned; the [print] of the [except] clause is
    outside any [try], and what it raises leaves [base_model].

    The call [warnings.filterwarnings("ignore", category=DeprecationWarning)]
    that opens [base_model], each [select] and [recognize] adds an entry to
    the warning filters of the process and returns [None]; warnings are not
    part of the embedding. *)
Definition base_model (self : ModelSelector) (num_states : Z)
  : result (option (model L)) :=
  try_handle
    (hmm_model <- hmm_fit L num_states (random_state self) (X self) (lengths self) ;;
     _ <- print_if_verbose self (created_message self num_states) ;;
     Return (Some hmm_model))
    (_ <- print_if_verbose self (failure_message self num_states) ;;
     Return None).

(** [model.score(X, lengths)]; [None] has no attribute [score]. *)
Definition score_of (m : option (model L)) (X : ndarray) (lengths : list Z)
  : result scalar :=
  match m with
  | Some hmm_model => hmm_score L hmm_model X lengths
  | None => Raise AttributeError
  end.

(** *** SelectorConstant *)

Definition SelectorConstant_select (self : ModelSelector)
  : result (option (model L)) :=
  let best_num_components := n_constant self in
  base_model self best_num_components.

(** *** SelectorBIC *)

(** The free parameters [p] and the score [-2 * logL + p * log N]. *)
Definition bic_params (self : ModelSelector) (n : Z) : Z :=
  (n * (n - 1) + (n - 1) + 2 * snd (shape (X self)) * n)%Z.

Definition bic_score (self : ModelSelector) (n : Z) (logL : scalar) : result scalar :=
  let p := bic_params self n in
  penalty <- Num.int_mul p (npfloat (np_log L (fst (shape (X self))))) ;;
  Return (Num.add (Num.mul (pyfloat (-2)) logL) penalty).

(** The body of the [try] block for one [n]. *)
Definition bic_candidate (self : ModelSelector) (n : Z)
  : result (option (model L) * scalar) :=
  model <- base_model self n ;;
  logL <- score_of model (X self) (lengths self) ;;
  bic <- bic_score self n logL ;;
  Return (model, bic).

Definition bic_step (self : ModelSelector)
    (lbicModel : option (model L) * scalar) (n : Z)
  : option (model L) * scalar :=
  try_except
    ('(model, bic) <- bic_candidate self n ;;
     Return (if Num.lt bic (snd lbicModel) then (model, bic) else lbicModel))
    lbicModel.

Definition bic_search (self : ModelSelector) (candidates : list Z)
  : option (model L) * scalar :=
  fold_left (bic_step self) candidates (None, pyfloat infinity).

Definition SelectorBIC_select (self : ModelSelector)
  : result (option (model L)) :=
  let lbicModel :=
    bic_search self
      (py_range (min_n_components self) (max_n_components self + 1)) in
  Return (fst lbicModel).

(** *** SelectorDIC *)

(** [sum(model.score(self.hwords[word][0], self.hwords[word][1])
        for word in self.words)], started from the integer zero. *)
Fixpoint sum_scores (m : option (model L)) (hwords : dict Xlengths)
    (word_list : list string) (acc : scalar) : result scalar :=
  match word_list with
  | [] => Return acc
  | word :: rest =>
      xl <- dict_get hwords word ;;
      s <- score_of m (fst xl) (snd xl) ;;
      sum_scores m hwords rest (Num.add acc s)
  end.

Definition dic_candidate (self : ModelSelector) (n : Z)
  : result (option (model L) * scalar) :=
  model <- base_model self n ;;
  logL <- score_of model (X self) (lengths self) ;;
  sumAllLogL <- sum_scores model (hwords self) (dict_keys (words self)) (pyfloat 0) ;;
  mean <- Num.truediv_int sumAllLogL (dict_len (words self) - 1) ;;
  Return (model, Num.sub logL mean).

Definition dic_step (self : ModelSelector)
    (ldicModel : option (model L) * scalar) (n : Z)
  : option (model L) * scalar :=
  try_except
    ('(model, dic) <- dic_candidate self n ;;
     Return (if Num.gt dic (snd ldicModel) then (model, dic) else ldicModel))
    ldicModel.

Definition dic_search (self : ModelSelector) (candidates : list Z)
  : option (model L) * scalar :=
  fold_left (dic_step self) candidates (None, pyfloat neg_infinity).

Definition SelectorDIC_select (self : ModelSelector)
  : result (option (model L)) :=
  let ldicModel :=
    dic_search self
      (py_range (min_n_components self) (max_n_components self + 1)) in
  Return (fst ldicModel).

(** *** SelectorCV *)

(** The inner loop over the splits: the held-out sequences are combined
    and scored by [model]. *)
Fixpoint cv_folds (m : option (model L)) (seqs : list sequence)
    (splits : list (list nat * list nat)) (folds : list scalar)
  : result (list scalar) :=
  match splits with
  | [] => Return folds
  | (train, test) :: rest =>
      '(X, length) <- combine_sequences L test seqs ;;
      s <- score_of m X length ;;
      cv_folds m seqs rest (folds ++ [s])
  end.

(** A name that is read must be bound in the scope. *)
Definition load_name {A : Type} (scope : dict A) (name : string) : result A :=
  match dict_get scope name with
  | Return v => Return v
  | Raise _ => Raise NameError
  end.

(** The body of the outer loop for one [nComp]; the list the inner loop
    fills is named [folds], the name read afterwards is [fold_scores]. *)
Definition cv_candidate (self : ModelSelector) (nComp : Z) : result scalar :=
  model <- base_model self nComp ;;
  splits <- kfold_split L (n_splits L) (sequences self) ;;
  folds <- cv_folds model (sequences self) splits [] ;;
  fold_scores <- load_name [("folds"%string, folds)] "fold_scores" ;;
  Return (npfloat (np_mean L fold_scores)).

(** The outer loop; an exception leaves the loop with the means collected
    so far. *)
Fixpoint cv_loop (self : ModelSelector) (comps : list Z) (means : list scalar)
  : list scalar :=
  match comps with
  | [] => means
  | nComp :: rest =>
      match cv_candidate self nComp with
      | Return mu => cv_loop self rest (means ++ [mu])
      | Raise _ => means
      end
  end.

(** The whole [try] block, whose [except] clause passes. *)
Definition cv_means (self : ModelSelector) : list scalar :=
  match (v <- getattr self "n_components" ;; iter_ints v) with
  | Return comps => cv_loop self comps []
  | Raise _ => []
  end.

(** [np.argmax]: the first index of the maximum, a NaN counting as
    maximal. *)
Fixpoint argmax_from (l : list scalar) (i : Z) (best : scalar) (best_i : Z) : Z :=
  match l with
  | [] => best_i
  | x :: rest =>
      if Num.is_nan best then best_i
      else if Num.lt best x || Num.is_nan x then argmax_from rest (i + 1) x i
      else argmax_from rest (i + 1) best best_i
  end.

Definition np_argmax (l : list scalar) : result Z :=
  match l with
  | [] => Raise ValueError
  | x :: rest => Return (argmax_from rest 1 x 0)
  end.

(** [l[i]] *)
Definition list_getitem {A : Type} (l : list A) (i : Z) : result A :=
  let j := if (i <? 0)%Z then (i + Z.of_nat (List.length l))%Z else i in
  if (j <? 0)%Z then Raise IndexError
  else match nth_error l (Z.to_nat j) with
       | Some a => Return a
       | None => Raise IndexError
       end.

Definition SelectorCV_select (self : ModelSelector)
  : result (option (model L)) :=
  let means := cv_means self in
  states <- match means with
            | [] => Return (n_constant self)
            | _ :: _ =>
                v <- getattr self "n_components" ;;
                comps <- iter_ints v ;;
                i <- np_argmax means ;;
                list_getitem comps i
            end ;;
  base_model self states.

(** *** The strategies *)

Inductive strategy : Type := Constant | BIC | DIC | CV.

Definition select (s : strategy) (self : ModelSelector)
  : result (option (model L)) :=
  match s with
  | Constant => SelectorConstant_select self
  | BIC => SelectorBIC_select self
  | DIC => SelectorDIC_select self
  | CV => SelectorCV_select self
  end.

(** ** [my_recognizer.py] *)

(** The test set: [get_all_sequences()] and [get_all_Xlengths()], both keyed
    by the index of the test item. *)
Record SinglesData : Type := mk_SinglesData {
  get_all_sequences : list (Z * list sequence);
  get_all_Xlengths : list (Z * Xlengths)
}.

(** One turn of the loop over [models.items()]. *)
Definition recognize_step (X : ndarray) (lengths : list Z)
    (st : dict scalar * (string * scalar)) (item : string * option (model L))
  : dict scalar * (string * scalar) :=
  let '(prob, bestOption) := st in
  let '(word, model) := item in
  let logL := try_except (score_of model X lengths) (pyfloat neg_infinity) in
  (dict_set prob word logL,
   if Num.gt logL (snd bestOption) then (word, logL) else bestOption).

(** The body of the loop over the test sequences: the dictionary of
    scores and the guess. *)
Definition recognize_sequence (models : dict (option (model L)))
    (X : ndarray) (lengths : list Z) : dict scalar * string :=
  let '(prob, bestOption) :=
    fold_left (recognize_step X lengths) models
      ([], (""%string, pyfloat neg_infinity)) in
  (prob, fst bestOption).

Fixpoint recognize_loop (models : dict (option (model L)))
    (allXlength : list (Z * Xlengths)) (keys : list Z)
    (probabilities : list (dict scalar)) (guesses : list string)
  : result (list (dict scalar) * list string) :=
  match keys with
  | [] => Return (probabilities, guesses)
  | sequence :: rest =>
      '(X, lengths) <- assoc_get Z.eqb allXlength sequence ;;
      let '(prob, guess) := recognize_sequence models X lengths in
      recognize_loop models allXlength rest
        (probabilities ++ [prob]) (guesses ++ [guess])
  end.

Definition recognize (models : dict (option (model L))) (test_set : SinglesData)
  : result (list (dict scalar) * list string) :=
  let allXlength := get_all_Xlengths test_set in
  recognize_loop models allXlength (map fst (get_all_sequences test_set)) [] [].

End Selectors.


(** ** [my_model_selectors_org_working.py]

    The second file holds the same classes.  It does not parse: the
    parenthesis opened in the BIC formula on line 85 is never closed.  Its
    [SelectorConstant] and [SelectorDIC] compute what the ones above
    compute; its [SelectorBIC] and [SelectorCV], read with the parenthesis
    closed at the end of line 85, are the following. *)

Module OrgWorking.

Section Selectors.

Variable L : Library.

(** One [try] holds the whole loop: an exception leaves the loop with the
    best pair found so far. *)
Fixpoint bic_loop (self : ModelSelector) (candidates : list Z)
    (lbicModel : option (model L) * scalar) : option (model L) * scalar :=
  match candidates with
  | [] => lbicModel
  | n :: rest =>
      match bic_candidate L self n with
      | Return (model, bic) =>
          bic_loop self rest
            (if Num.lt bic (snd lbicModel) then (model, bic) else lbicModel)
      | Raise _ => lbicModel
      end
  end.

Definition SelectorBIC_select (self : ModelSelector)
  : result (option (model L)) :=
  let lbicModel :=
    bic_loop self
      (py_range (min_n_components self) (max_n_components self + 1))
      (None, pyfloat infinity) in
  Return (fst lbicModel).

(** The list the inner loop fills and the name read afterwards are both
    [fold_scores]. *)
Definition cv_candidate (self : ModelSelector) (n_component : Z) : result scalar :=
  model <- base_model L self n_component ;;
  splits <- kfold_split L (n_splits L) (sequences self) ;;
  fold_scores <- cv_folds L model (sequences self) splits [] ;;
  Return (npfloat (np_mean L fold_scores)).

Fixpoint cv_loop (self : ModelSelector) (comps : list Z) (mean_scores : list scalar)
  : list scalar :=
  match comps with
  | [] => mean_scores
  | n_component :: rest =>
      match cv_candidate self n_component with
      | Return mu => cv_loop self rest (mean_scores ++ [mu])
      | Raise _ => mean_scores
      end
  end.

Definition cv_means (self : ModelSelector) : list scalar :=
  match (v <- getattr self "n_components" ;; iter_ints v) with
  | Return comps => cv_loop self comps []
  | Raise _ => []
  end.

Definition SelectorCV_select (self : ModelSelector)
  : result (option (model L)) :=
  let mean_scores := cv_means self in
  states <- match mean_scores with
            | [] => Return (n_constant self)
            | _ :: _ =>
                v <- getattr self "n_components" ;;
                comps <- iter_ints v ;;
                i <- np_argmax mean_scores ;;
                list_getitem comps i
            end ;;
  base_model L self states.

End Selectors.

End OrgWorking.

(** ** What the documentation asks of DIC and CV

    Two definitions that follow the words of the class docstrings rather
    than the code, to compare the code with. *)

Section Documented.

Variable L : Library.

(** Modelled from the docstring of [SelectorDIC],
    [DIC = log(P(X(i)) - 1/(M-1) * SUM(log(P(X(all but i))]: the sum runs
    over the words other than [this_word]. *)
Definition dic_documented_candidate (self : ModelSelector) (n : Z)
  : result (option (model L) * scalar) :=
  model <- base_model L self n ;;
  logL <- score_of L model (X self) (lengths self) ;;
  let others :=
    filter (fun word => negb (String.eqb word (this_word self)))
      (dict_keys (words self)) in
  sumOther <- sum_scores L model (hwords self) others (pyfloat 0) ;;
  mean <- Num.truediv_int sumOther (dict_len (words self) - 1) ;;
  Return (model, Num.sub logL mean).

Definition dic_documented_step (self : ModelSelector)
    (best : option (model L) * scalar) (n : Z) : option (model L) * scalar :=
  try_except
    ('(model, dic) <- dic_documented_candidate self n ;;
     Return (if Num.gt dic (snd best) then (model, dic) else best))
    best.

Definition SelectorDIC_documented (self : ModelSelector)
  : result (option (model L)) :=
  Return (fst (fold_left (dic_documented_step self)
                 (py_range (min_n_components self) (max_n_components self + 1))
                 (None, pyfloat neg_infinity))).

(** Modelled from the docstring of [SelectorCV], "select best model based
    on average log Likelihood of cross-validation folds": for each split the
    model is fitted on the training sequences and scored on the held-out
    ones; the state count with the best mean is refitted on all the data. *)
Fixpoint cv_documented_folds (self : ModelSelector) (n : Z)
    (splits : list (list nat * list nat)) (folds : list scalar)
  : result (list scalar) :=
  match splits with
  | [] => Return folds
  | (train, test) :: rest =>
      '(Xtrain, ltrain) <- combine_sequences L train (sequences self) ;;
      fold_model <- hmm_fit L n (random_state self) Xtrain ltrain ;;
      '(Xtest, ltest) <- combine_sequences L test (sequences self) ;;
      s <- hmm_score L fold_model Xtest ltest ;;
      cv_documented_folds self n rest (folds ++ [s])
  end.

Definition cv_documented_candidate (self : ModelSelector) (n : Z) : result scalar :=
  splits <- kfold_split L (n_splits L) (sequences self) ;;
  folds <- cv_documented_folds self n splits [] ;;
  Return (npfloat (np_mean L folds)).

Definition cv_documented_step (self : ModelSelector)
    (best : option Z * scalar) (n : Z) : option Z * scalar :=
  try_except
    (mu <- cv_documented_candidate self n ;;
     Return (if Num.gt mu (snd best) then (Some n, mu) else best))
    best.

Definition SelectorCV_documented (self : ModelSelector)
  : result (option (model L)) :=
  let best :=
    fold_left (cv_documented_step self)
      (py_range (min_n_components self) (max_n_components self + 1))
      (None, pyfloat neg_infinity) in
  match fst best with
  | Some n => base_model L self n
  | None => base_model L self (n_constant self)
  end.

End Documented.

(** ** A table-driven library for concrete runs

    A model is its number of states; [fits n] tells whether fitting [n]
    states succeeds and [scores n rows] is the score of the [n]-state model
    on data of [rows] rows. *)

Module Table.

Open Scope float_scope.

(** Natural logarithms of the row counts the runs use. *)
Definition log (N : Z) : float :=
  if (N =? 0)%Z then neg_infinity
  else if (N =? 1)%Z then 0
  else if (N =? 2)%Z then 0x1.62e42fefa39efp-1
  else if (N =? 3)%Z then 0x1.193ea7aad030bp+0
  else nan.

Definition mean (l : list scalar) : float :=
  fold_left PrimFloat.add (map val l) 0 / F64.of_Z (Z.of_nat (List.length l)).

(** [KFold(n_splits=k).split]: contiguous folds, the first [n mod k] one
    longer; fewer samples than splits is a [ValueError]. *)
Fixpoint folds_from (sizes : list nat) (start n : nat) : list (list nat * list nat) :=
  match sizes with
  | [] => []
  | size :: rest =>
      (seq 0 start ++ seq (start + size) (n - start - size), seq start size)
        :: folds_from rest (start + size) n
  end.

Definition kfold (k : nat) (seqs : list sequence)
  : result (list (list nat * list nat)) :=
  let n := List.length seqs in
  if (n <? k)%nat then Raise ValueError
  else Return (folds_from
                 (map (fun i => (n / k + (if (i <? n mod k)%nat then 1 else 0))%nat)
                    (seq 0 k)) 0 n).

(** [combine_sequences]: the chosen sequences stacked, with their lengths. *)
Fixpoint pick (idx : list nat) (seqs : list sequence) : result (list sequence) :=
  match idx with
  | [] => Return []
  | i :: rest =>
      match nth_error seqs i with
      | Some s => chosen <- pick rest seqs ;; Return (s :: chosen)
      | None => Raise IndexError
      end
  end.

Definition stack (chosen : list sequence) : Xlengths :=
  let frames := List.concat chosen in
  (mk_ndarray (Z.of_nat (List.length frames),
               Z.of_nat (List.length (hd [] frames))) (List.concat frames),
   map (fun s => Z.of_nat (List.length s)) chosen).

Definition combine (idx : list nat) (seqs : list sequence) : result Xlengths :=
  chosen <- pick idx seqs ;; Return (stack chosen).

(** [sys.stdout] with an encoding that holds every character. *)
Definition any_stdout (text : string) : result unit := Return tt.

(** [sys.stdout] with the encoding [ascii]: a character above 127 is a
    [UnicodeEncodeError].  The characters of a [string] are the code points
    below 256. *)
Definition ascii_stdout (text : string) : result unit :=
  if forallb (fun c => (nat_of_ascii c <? 128)%nat) (list_ascii_of_string text)
  then Return tt
  else Raise UnicodeEncodeError.

Definition library_on (stdout : string -> result unit) (fits : Z -> bool)
    (scores : Z -> Z -> result scalar) : Library :=
  {| model := Z;
     hmm_fit := fun n _ _ _ => if fits n then Return n else Raise ValueError;
     hmm_score := fun m X _ => scores m (fst (shape X));
     np_log := log;
     np_mean := mean;
     n_splits := 3;
     kfold_split := kfold;
     combine_sequences := combine;
     print := stdout |}.

Definition library (fits : Z -> bool) (scores : Z -> Z -> result scalar) : Library :=
  library_on any_stdout fits scores.

(** A word given by its sequences. *)
Definition item (name : string) (seqs : list sequence)
  : (string * list sequence) * (string * Xlengths) :=
  ((name, seqs), (name, stack seqs)).

End Table.

(** ** Keeping the best candidate

    The three searches ([SelectorBIC], [SelectorDIC], [recognize]) share one
    shape: a candidate whose block raises leaves the best pair as it is, the
    others replace it when their score is strictly better. *)

Section KeepBest.

Variables (P C : Type).
Variable better : scalar -> scalar -> bool.
Variable outcome : C -> option (P * scalar).

Definition keep_best (acc : P * scalar) (c : C) : P * scalar :=
  match outcome c with
  | Some (p, s) => if better s (snd acc) then (p, s) else acc
  | None => acc
  end.

(** [(p, s)] comes from a candidate of [cs] that beats [init], none beats
    it, and every earlier candidate with a score that is a number is
    strictly worse. *)
Definition first_best (cs : list C) (init : scalar) (p : P) (s : scalar) : Prop :=
  exists cs1 c cs2,
    cs = cs1 ++ c :: cs2 /\
    outcome c = Some (p, s) /\
    better s init = true /\
    (forall c' p' s', In c' cs1 -> outcome c' = Some (p', s') ->
       better s' s = false /\ (Num.is_nan s' = false -> better s s' = true)) /\
    (forall c' p' s', In c' cs2 -> outcome c' = Some (p', s') ->
       better s' s = false).

End KeepBest.

(** What a [try] block hands to the search: nothing when it raises. *)
Definition outcome_of {A : Type} (c : result A) : option A :=
  match c with
  | Return a => Some a
  | Raise _ => None
  end.

(** ** Statements

    The outcome of a candidate of each search, and the claims of the
    specification that the code does not meet, worded as the specification
    words them. *)

Section Statements.

Variable L : Library.
Variable self : ModelSelector.

Definition in_range (n : Z) : Prop :=
  (min_n_components self <= n <= max_n_components self)%Z.

Definition bic_outcome (n : Z) : option (option (model L) * scalar) :=
  outcome_of (bic_candidate L self n).

(** "[SelectorBIC.select] returns, among the candidates that fit and score
    successfully, a model whose BIC score is less than or equal to the BIC
    score of every other successfully-scored candidate." *)
Definition bic_minimal_as_stated : Prop :=
  (exists n m b, in_range n /\ bic_candidate L self n = Return (m, b)) ->
  exists n hm b,
    in_range n /\
    bic_candidate L self n = Return (Some hm, b) /\
    SelectorBIC_select L self = Return (Some hm) /\
    forall n' m' b',
      in_range n' -> bic_candidate L self n' = Return (m', b') ->
      Num.le b b' = true.

Definition dic_outcome (n : Z) : option (option (model L) * scalar) :=
  outcome_of (dic_candidate L self n).

(** The first two statements of a candidate's [try] block:
    [model = self.base_model(n)] and [model.score(self.X, self.lengths)]. *)
Definition fit_and_score (n : Z) : result scalar :=
  model <- base_model L self n ;;
  score_of L model (X self) (lengths self).

(** A candidate fails to fit or to score: [base_model] gives [None], whose
    [score] is an [AttributeError], or raises, or the score of the fitted
    model raises. *)
Definition candidate_fails (n : Z) : Prop := raises (fit_and_score n).

(** The lines [base_model] prints for [n] are printed without an
    exception: [verbose] is off, or [sys.stdout] takes both. *)
Definition print_succeeds (n : Z) : Prop :=
  print_if_verbose L self (created_message self n) = Return tt /\
  print_if_verbose L self (failure_message self n) = Return tt.

(** "For every strategy, [select] never raises; when every candidate in
    the range fails to fit or score, the result is the explicit absence." *)
Definition select_total_as_stated : Prop :=
  forall s : strategy,
    (exists r, select L s self = Return r) /\
    ((forall n, in_range n -> candidate_fails n) ->
     select L s self = Return None).

(** "For every dataset containing exactly one vocabulary item the call
    returns an explicit absence." *)
Definition dic_single_item_as_stated : Prop :=
  List.length (words self) = 1%nat -> SelectorDIC_select L self = Return None.

End Statements.

Section RecognizerStatements.

Variable L : Library.
Variable models : dict (option (model L)).
Variables (X : ndarray) (lengths : list Z).

(** The score [recognize] records for a model. *)
Definition recorded_score (m : option (model L)) : scalar :=
  try_except (score_of L m X lengths) (pyfloat neg_infinity).

Definition recognize_outcome (item : string * option (model L))
  : option (string * scalar) :=
  Some (fst item, recorded_score (snd item)).

Definition guess : string := snd (recognize_sequence L models X lengths).
Definition prob : dict scalar := fst (recognize_sequence L models X lengths).

(** "[recognize] returns as the guess the first-encountered item name
    whose score is maximal." *)
Definition guess_first_maximal_as_stated : Prop :=
  models <> [] ->
  exists pre m post,
    models = pre ++ (guess, m) :: post /\
    (forall w' m', In (w', m') models ->
       Num.le (recorded_score m') (recorded_score m) = true) /\
    (forall w' m', In (w', m') pre ->
       Num.lt (recorded_score m') (recorded_score m) = true).

(** "When scoring fails for every model, [recognize] records every score
    as negative infinity and returns the empty string, a value that is not
    the name of any model in the mapping." *)
Definition guess_unnamed_as_stated : Prop :=
  NoDup (dict_keys models) ->
  (forall w m, In (w, m) models -> raises (score_of L m X lengths)) ->
  prob = map (fun item => (fst item, pyfloat neg_infinity)) models /\
  guess = ""%string /\
  ~ In guess (dict_keys models).

End RecognizerStatements.

(** ** Concrete runs *)

Module Runs.

Import Table.
Open Scope string_scope.
Open Scope float_scope.

(** Sequences of one feature: [one] has one frame, [two] has two. *)
Definition one : sequence := [[1]].
Definition two : sequence := [[1]; [2]].

Definition dataset (items : list (string * list sequence))
  : dict (list sequence) * dict Xlengths :=
  (items, map (fun it => (fst it, stack (snd it))) items).

Definition selector (items : list (string * list sequence)) (this_word : string)
    (n_constant min_n_components max_n_components : Z) : result ModelSelector :=
  ModelSelector_init (fst (dataset items)) (snd (dataset items)) this_word
    n_constant min_n_components max_n_components 14 false.

(** The same selector built with [verbose=True]. *)
Definition verbose_selector (items : list (string * list sequence))
    (this_word : string) (n_constant min_n_components max_n_components : Z)
  : result ModelSelector :=
  ModelSelector_init (fst (dataset items)) (snd (dataset items)) this_word
    n_constant min_n_components max_n_components 14 true.

(** A word of one character, the letter e with an acute accent (code 233),
    which the encoding [ascii] does not hold. *)
Definition accented : string := String (ascii_of_nat 233) EmptyString.

(** Every fit succeeds and every score is minus infinity. *)
Definition impossible : Library :=
  library (fun _ => true) (fun _ _ => Return (npfloat neg_infinity)).

(** Every fit succeeds and every score raises. *)
Definition unscorable : Library :=
  library (fun _ => true) (fun _ _ => Raise ValueError).

(** Every fit succeeds and every score is [-3], as a Python float and as a
    numpy scalar. *)
Definition flat_py : Library :=
  library (fun _ => true) (fun _ _ => Return (pyfloat (-3))).
Definition flat_np : Library :=
  library (fun _ => true) (fun _ _ => Return (npfloat (-3))).

(** The same fits and numpy scores, with [sys.stdout] encoded in [ascii]. *)
Definition ascii_flat : Library :=
  library_on ascii_stdout (fun _ => true) (fun _ _ => Return (npfloat (-3))).

(** Only [n] states can be fitted; every score is [-10]. *)
Definition only (n : Z) : Library :=
  library (Z.eqb n) (fun _ _ => Return (npfloat (-10))).

(** Two states score [-10] on one row and [-20] on two; three states score
    [-40] on one row and [-25] on two. *)
Definition crossed : Library :=
  library (fun _ => true)
    (fun n rows =>
       Return (npfloat (if (n =? 2)%Z
                        then (if (rows =? 1)%Z then -10 else -20)
                        else (if (rows =? 1)%Z then -40 else -25)))).

(** Two states score [-5] on any data, the other counts [-9]. *)
Definition two_is_best : Library :=
  library (fun _ => true)
    (fun n _ => Return (npfloat (if (n =? 2)%Z then -5 else -9))).

(** The scores of the example of the specification: [-50] for two states,
    [-30] for three, [-75] for the others. *)
Definition spec_example : Library :=
  library (fun _ => true)
    (fun n _ =>
       Return (npfloat (if (n =? 2)%Z then -50
                        else if (n =? 3)%Z then -30 else -75))).

(** One test item, a sequence of one frame. *)
Definition one_item : SinglesData :=
  mk_SinglesData [(0%Z, [one])] [(0%Z, stack [one])].

End Runs.

(** ** More of the second file and of the searches *)

(** [SelectorDIC.select] of [my_model_selectors_org_working.py]: the sum is
    an explicit loop and the best score and the best model are two
    variables. *)
Module OrgWorkingDIC.

Section Selector.

Variable L : Library.

(** The loop [for word in self.words], adding to [total_other_logL]. *)
Fixpoint total_other (m : option (model L)) (hwords : dict Xlengths)
    (word_list : list string) (total_other_logL : scalar) : result scalar :=
  match word_list with
  | [] => Return total_other_logL
  | word :: rest =>
      '(other_x, other_lengths) <- dict_get hwords word ;;
      s <- score_of L m other_x other_lengths ;;
      total_other m hwords rest (Num.add total_other_logL s)
  end.

(** The body of the [try] block up to [dic_score]. *)
Definition dic_score (self : ModelSelector) (n : Z)
  : result (option (model L) * scalar) :=
  model <- base_model L self n ;;
  logL <- score_of L model (X self) (lengths self) ;;
  total_other_logL <-
    total_other model (hwords self) (dict_keys (words self)) (pyfloat 0) ;;
  avg_logL <- Num.truediv_int total_other_logL (dict_len (words self) - 1) ;;
  Return (model, Num.sub logL avg_logL).

(** The state is [(min_val, best_model)]. *)
Definition dic_step (self : ModelSelector)
    (st : scalar * option (model L)) (n : Z) : scalar * option (model L) :=
  let '(min_val, best_model) := st in
  try_except
    ('(model, score) <- dic_score self n ;;
     Return (if Num.gt score min_val then (score, model)
             else (min_val, best_model)))
    (min_val, best_model).

Definition SelectorDIC_select (self : ModelSelector)
  : result (option (model L)) :=
  let '(min_val, best_model) :=
    fold_left (dic_step self)
      (py_range (min_n_components self) (max_n_components self + 1))
      (pyfloat neg_infinity, None) in
  Return best_model.

End Selector.

End OrgWorkingDIC.

Section Prefix.

Variable L : Library.
Variable self : ModelSelector.

(** The candidates met before the first one whose block raises. *)
Fixpoint completing_prefix (candidates : list Z) : list Z :=
  match candidates with
  | [] => []
  | n :: rest =>
      match bic_candidate L self n with
      | Return _ => n :: completing_prefix rest
      | Raise _ => []
      end
  end.

End Prefix.

(** * Facts *)

Lemma bind_Return_inv {A B : Type} (c : result A) (k : A -> result B) (b : B) :
  bind c k = Return b -> exists a, c = Return a /\ k a = Return b.
Proof.
  destruct c as [a | e]; simpl; intros H.
  - exists a. split; [reflexivity | exact H].
  - discriminate H.
Qed.

Module F64Facts.

Import F64.

Open Scope float_scope.

Section SpecOrder.

Lemma SFcompare_refl (a : spec_float) :
  SFcompare a a = None \/ SFcompare a a = Some Eq.
Proof.
  destruct a as [s | s | | s m e]; simpl; auto; destruct s; auto;
    rewrite Z.compare_refl, Pos.compare_cont_refl; auto.
Qed.

Lemma SFltb_irrefl (a : spec_float) : SFltb a a = false.
Proof.
  unfold SFltb. destruct (SFcompare_refl a) as [H | H]; rewrite H; reflexivity.
Qed.

Lemma cont_Eq_Lt (p q : positive) :
  Pos.compare_cont Eq p q = Lt <-> (p < q)%positive.
Proof. reflexivity. Qed.

Lemma cont_Eq_Gt (p q : positive) :
  Pos.compare_cont Eq p q = Gt <-> (q < p)%positive.
Proof.
  change (Pos.compare_cont Eq p q) with (Pos.compare p q).
  rewrite Pos.compare_gt_iff. reflexivity.
Qed.

Lemma cont_Eq_Eq (p q : positive) :
  Pos.compare_cont Eq p q = Eq <-> p = q.
Proof.
  change (Pos.compare_cont Eq p q) with (Pos.compare p q).
  apply Pos.compare_eq_iff.
Qed.

Lemma mag_cmp_Lt e1 m1 e2 m2 :
  match Z.compare e1 e2 with
  | Lt => Lt | Gt => Gt | Eq => Pos.compare_cont Eq m1 m2
  end = Lt <-> mag_lt e1 m1 e2 m2.
Proof.
  unfold mag_lt. destruct (Z.compare_spec e1 e2) as [E | E | E].
  - rewrite cont_Eq_Lt. split; [intros H; right; auto | intros [H | [_ H]]; [lia | exact H]].
  - split; [left; exact E | reflexivity].
  - split; [discriminate | intros [H | [H _]]; lia].
Qed.

Lemma mag_cmp_Gt e1 m1 e2 m2 :
  match Z.compare e1 e2 with
  | Lt => Lt | Gt => Gt | Eq => Pos.compare_cont Eq m1 m2
  end = Gt <-> mag_lt e2 m2 e1 m1.
Proof.
  unfold mag_lt. destruct (Z.compare_spec e1 e2) as [E | E | E].
  - rewrite cont_Eq_Gt. split; [intros H; right; auto | intros [H | [_ H]]; [lia | exact H]].
  - split; [discriminate | intros [H | [H _]]; lia].
  - split; [left; exact E | reflexivity].
Qed.

Lemma mag_cmp_opp_Lt e1 m1 e2 m2 :
  match Z.compare e1 e2 with
  | Lt => Gt | Gt => Lt | Eq => CompOpp (Pos.compare_cont Eq m1 m2)
  end = Lt <-> mag_lt e2 m2 e1 m1.
Proof.
  rewrite <- mag_cmp_Gt.
  destruct (Z.compare e1 e2); [| split; discriminate | split; reflexivity].
  destruct (Pos.compare_cont Eq m1 m2); simpl; split; congruence.
Qed.

Lemma mag_lt_trans e1 m1 e2 m2 e3 m3 :
  mag_lt e1 m1 e2 m2 -> mag_lt e2 m2 e3 m3 -> mag_lt e1 m1 e3 m3.
Proof. unfold mag_lt. lia. Qed.

Lemma SFltb_sf_lt (a b : spec_float) : SFltb a b = true <-> sf_lt a b.
Proof.
  unfold SFltb.
  destruct a as [s1 | s1 | | s1 m1 e1], b as [s2 | s2 | | s2 m2 e2]; simpl;
    try destruct s1; try destruct s2; simpl;
    try (split; [discriminate | tauto]);
    try (split; [discriminate | intros []; discriminate]);
    try (split; [discriminate | intros []]);
    try (split; [discriminate | discriminate]);
    try (split; [reflexivity | reflexivity]);
    try (split; [tauto | reflexivity]);
    try (split; [intros _; split; reflexivity | reflexivity]);
    try reflexivity.
  - rewrite <- mag_cmp_opp_Lt.
    destruct (match (e1 ?= e2)%Z with
              | Eq => CompOpp (Pos.compare_cont Eq m1 m2) | Lt => Gt | Gt => Lt end);
      split; congruence.
  - rewrite <- mag_cmp_Lt.
    destruct (match (e1 ?= e2)%Z with
              | Eq => Pos.compare_cont Eq m1 m2 | Lt => Lt | Gt => Gt end);
      split; congruence.
Qed.

Lemma sf_lt_trans (a b c : spec_float) : sf_lt a b -> sf_lt b c -> sf_lt a c.
Proof.
  destruct a as [s1 | s1 | | s1 m1 e1], b as [s2 | s2 | | s2 m2 e2],
    c as [s3 | s3 | | s3 m3 e3]; simpl;
    try destruct s1; try destruct s2; try destruct s3; simpl;
    try tauto; try congruence;
    try (intros; eapply mag_lt_trans; eassumption);
    try (intros [? ?]; congruence); try (intros ? [? ?]; congruence).
Qed.

Lemma SFeqb_refl_nan (a : spec_float) : negb (SFeqb a a) = sf_nan a.
Proof.
  unfold SFeqb. destruct a as [s | s | | s m e]; simpl; try destruct s; try reflexivity;
    rewrite Z.compare_refl, Pos.compare_cont_refl; reflexivity.
Qed.

Lemma SFcompare_antisym (a b : spec_float) :
  SFcompare b a = option_map CompOpp (SFcompare a b).
Proof.
  destruct a as [s1 | s1 | | s1 m1 e1], b as [s2 | s2 | | s2 m2 e2]; simpl;
    try destruct s1; try destruct s2; simpl; try reflexivity;
    rewrite (Z.compare_antisym e1 e2);
    change (Pos.compare_cont Eq m2 m1) with (Pos.compare m2 m1);
    change (Pos.compare_cont Eq m1 m2) with (Pos.compare m1 m2);
    rewrite (Pos.compare_antisym m1 m2);
    destruct (Z.compare e1 e2); simpl; try reflexivity;
    destruct (Pos.compare m1 m2); reflexivity.
Qed.

Lemma SFcompare_nan (a b : spec_float) :
  SFcompare a b = None <-> sf_nan a = true \/ sf_nan b = true.
Proof.
  destruct a, b; simpl; split; try discriminate; try tauto;
    intros [H | H]; discriminate H.
Qed.

Lemma SFleb_total (a b : spec_float) :
  sf_nan a = false -> sf_nan b = false -> SFltb a b = false -> SFleb b a = true.
Proof.
  intros Ha Hb. unfold SFltb, SFleb. rewrite (SFcompare_antisym a b).
  destruct (SFcompare a b) as [[| |] |] eqn:E; simpl; try congruence.
  apply SFcompare_nan in E. destruct E; congruence.
Qed.

Lemma SFltb_not_nan (a b : spec_float) :
  SFltb a b = true -> sf_nan a = false /\ sf_nan b = false.
Proof.
  unfold SFltb. destruct a, b; simpl; try discriminate; auto.
Qed.

Lemma mag_cmp_Eq e1 m1 e2 m2 :
  match Z.compare e1 e2 with
  | Lt => Lt | Gt => Gt | Eq => Pos.compare_cont Eq m1 m2
  end = Eq -> e1 = e2 /\ m1 = m2.
Proof.
  destruct (Z.compare_spec e1 e2) as [E | E | E]; try discriminate.
  intros H. apply cont_Eq_Eq in H. auto.
Qed.

Lemma mag_cmp_opp_Eq e1 m1 e2 m2 :
  match Z.compare e1 e2 with
  | Lt => Gt | Gt => Lt | Eq => CompOpp (Pos.compare_cont Eq m1 m2)
  end = Eq -> e1 = e2 /\ m1 = m2.
Proof.
  destruct (Z.compare_spec e1 e2) as [E | E | E]; try discriminate.
  destruct (Pos.compare_cont Eq m1 m2) eqn:C; try discriminate.
  intros _. apply cont_Eq_Eq in C. auto.
Qed.

(** Numbers that compare equal: the two zeros, or the same number. *)
Lemma SFcompare_Eq_inv (a b : spec_float) :
  SFcompare a b = Some Eq ->
  a = b \/ (exists s1 s2, a = S754_zero s1 /\ b = S754_zero s2).
Proof.
  destruct a as [s1 | s1 | | s1 m1 e1], b as [s2 | s2 | | s2 m2 e2]; simpl;
    try destruct s1; try destruct s2; simpl; try discriminate;
    try (intros _; left; reflexivity);
    try (intros _; right; eexists; eexists; split; reflexivity).
  - intros H. injection H as H. apply mag_cmp_opp_Eq in H.
    destruct H; subst. left; reflexivity.
  - intros H. injection H as H. apply mag_cmp_Eq in H.
    destruct H; subst. left; reflexivity.
Qed.

Lemma sf_lt_zero_l (s1 s2 : bool) (c : spec_float) :
  sf_lt (S754_zero s1) c -> sf_lt (S754_zero s2) c.
Proof. destruct c; simpl; auto. Qed.

Lemma sf_lt_zero_r (s1 s2 : bool) (a : spec_float) :
  sf_lt a (S754_zero s1) -> sf_lt a (S754_zero s2).
Proof. destruct a; simpl; auto. Qed.

Lemma SFltb_SFleb_trans (a b c : spec_float) :
  SFltb a b = true -> SFleb b c = true -> SFltb a c = true.
Proof.
  intros Hab Hbc. unfold SFleb in Hbc.
  destruct (SFcompare b c) as [[| |] |] eqn:E; try discriminate.
  - apply SFcompare_Eq_inv in E. destruct E as [E | (s1 & s2 & E1 & E2)].
    + subst. exact Hab.
    + subst. apply SFltb_sf_lt. apply SFltb_sf_lt in Hab.
      eapply sf_lt_zero_r, Hab.
  - apply SFltb_sf_lt. apply sf_lt_trans with b; apply SFltb_sf_lt; [exact Hab |].
    unfold SFltb. rewrite E. reflexivity.
Qed.

Lemma SFleb_SFltb_trans (a b c : spec_float) :
  SFleb a b = true -> SFltb b c = true -> SFltb a c = true.
Proof.
  intros Hab Hbc. unfold SFleb in Hab.
  destruct (SFcompare a b) as [[| |] |] eqn:E; try discriminate.
  - apply SFcompare_Eq_inv in E. destruct E as [E | (s1 & s2 & E1 & E2)].
    + subst. exact Hbc.
    + subst. apply SFltb_sf_lt. apply SFltb_sf_lt in Hbc.
      eapply sf_lt_zero_l, Hbc.
  - apply SFltb_sf_lt. apply sf_lt_trans with b; apply SFltb_sf_lt; [| exact Hbc].
    unfold SFltb. rewrite E. reflexivity.
Qed.

End SpecOrder.

Lemma ltb_irrefl (x : float) : (x <? x) = false.
Proof. rewrite FloatAxioms.ltb_spec. apply SFltb_irrefl. Qed.

Lemma ltb_trans (x y z : float) :
  (x <? y) = true -> (y <? z) = true -> (x <? z) = true.
Proof.
  rewrite !FloatAxioms.ltb_spec, !SFltb_sf_lt. apply sf_lt_trans.
Qed.

Lemma is_nan_spec (x : float) : is_nan x = sf_nan (Prim2SF x).
Proof. unfold is_nan. rewrite FloatAxioms.eqb_spec. apply SFeqb_refl_nan. Qed.

Lemma ltb_not_nan (x y : float) :
  (x <? y) = true -> is_nan x = false /\ is_nan y = false.
Proof. rewrite FloatAxioms.ltb_spec, !is_nan_spec. apply SFltb_not_nan. Qed.

Lemma leb_total (x y : float) :
  is_nan x = false -> is_nan y = false -> (x <? y) = false -> (y <=? x) = true.
Proof. rewrite !is_nan_spec, FloatAxioms.ltb_spec, FloatAxioms.leb_spec. apply SFleb_total. Qed.

Lemma ltb_leb_trans (x y z : float) :
  (x <? y) = true -> (y <=? z) = true -> (x <? z) = true.
Proof. rewrite !FloatAxioms.ltb_spec, FloatAxioms.leb_spec. apply SFltb_SFleb_trans. Qed.

Lemma leb_ltb_trans (x y z : float) :
  (x <=? y) = true -> (y <? z) = true -> (x <? z) = true.
Proof. rewrite !FloatAxioms.ltb_spec, FloatAxioms.leb_spec. apply SFleb_SFltb_trans. Qed.

(** Nothing is below minus infinity and nothing is above plus infinity. *)
Lemma ltb_neg_infinity (x : float) : (x <? neg_infinity) = false.
Proof.
  rewrite FloatAxioms.ltb_spec. change (Prim2SF neg_infinity) with (S754_infinity true).
  unfold SFltb. destruct (Prim2SF x) as [s | s | | s m e]; simpl; try destruct s; reflexivity.
Qed.

Lemma infinity_ltb (x : float) : (infinity <? x) = false.
Proof.
  rewrite FloatAxioms.ltb_spec. change (Prim2SF infinity) with (S754_infinity false).
  unfold SFltb. destruct (Prim2SF x) as [s | s | | s m e]; simpl; try destruct s; reflexivity.
Qed.

End F64Facts.

(** ** The search keeps the first best candidate *)

Section KeepBestFacts.

Variables (P C : Type).
Variable better : scalar -> scalar -> bool.
Variable outcome : C -> option (P * scalar).

Hypothesis better_irrefl : forall x, better x x = false.
Hypothesis better_trans :
  forall x y z, better x y = true -> better y z = true -> better x z = true.
Hypothesis better_weak :
  forall x y z, better x y = true -> better z y = false ->
    Num.is_nan z = false -> better x z = true.

Let step := keep_best better outcome.

Lemma better_asym x y : better x y = true -> better y x = false.
Proof.
  intros H. destruct (better y x) eqn:E; [| reflexivity].
  rewrite <- (better_irrefl x). symmetry. eapply better_trans; eassumption.
Qed.

Lemma better_not_trans x y z :
  better x y = true -> better z y = false -> better z x = false.
Proof.
  intros Hxy Hzy. destruct (better z x) eqn:E; [| reflexivity].
  rewrite <- Hzy. symmetry. eapply better_trans; eassumption.
Qed.

Lemma keep_best_better acc c p s :
  outcome c = Some (p, s) -> better s (snd acc) = true -> step acc c = (p, s).
Proof. intros Hc Hb. unfold step, keep_best. rewrite Hc, Hb. reflexivity. Qed.

Lemma keep_best_worse acc c p s :
  outcome c = Some (p, s) -> better s (snd acc) = false -> step acc c = acc.
Proof. intros Hc Hb. unfold step, keep_best. rewrite Hc, Hb. reflexivity. Qed.

Lemma keep_best_none acc c : outcome c = None -> step acc c = acc.
Proof. intros Hc. unfold step, keep_best. rewrite Hc. reflexivity. Qed.

Lemma keep_best_fold (cs : list C) (init : P * scalar) :
  (fold_left step cs init = init /\
   forall c p s, In c cs -> outcome c = Some (p, s) -> better s (snd init) = false)
  \/ first_best better outcome cs (snd init)
       (fst (fold_left step cs init)) (snd (fold_left step cs init)).
Proof.
  induction cs as [| c cs IH] using rev_ind.
  - left. split; [reflexivity | intros c p s []].
  - rewrite fold_left_app. simpl.
    destruct IH as [[Hfin Hnone] | (cs1 & c0 & cs2 & Hcs & Hc0 & Hinit & Hbefore & Hafter)].
    + rewrite Hfin.
      destruct (outcome c) as [[p s] |] eqn:Hc.
      * destruct (better s (snd init)) eqn:Hb.
        -- right. rewrite (keep_best_better _ Hc Hb).
           exists cs, c, []. simpl. split; [reflexivity |]. split; [exact Hc |].
           split; [exact Hb |]. split; [| intros c' p' s' []].
           intros c' p' s' Hin Hc'. split.
           ++ eapply better_not_trans; [exact Hb | eapply Hnone; eassumption].
           ++ intros Hnan. eapply better_weak; [exact Hb | eapply Hnone; eassumption | exact Hnan].
        -- left. rewrite (keep_best_worse _ Hc Hb). split; [reflexivity |].
           intros c' p' s' Hin Hc'. apply in_app_or in Hin.
           destruct Hin as [Hin | [Heq | []]]; [eapply Hnone; eassumption |].
           subst c'. rewrite Hc in Hc'. injection Hc' as _ Hs. subst s'. exact Hb.
      * left. rewrite (keep_best_none _ Hc). split; [reflexivity |].
        intros c' p' s' Hin Hc'. apply in_app_or in Hin.
        destruct Hin as [Hin | [Heq | []]]; [eapply Hnone; eassumption |].
        subst c'. rewrite Hc in Hc'. discriminate Hc'.
    + right. set (acc := fold_left step cs init) in *.
      destruct (outcome c) as [[p s] |] eqn:Hc.
      * destruct (better s (snd acc)) eqn:Hb.
        -- rewrite (keep_best_better _ Hc Hb).
           exists cs, c, []. simpl. split; [reflexivity |]. split; [exact Hc |].
           split; [eapply better_trans; eassumption |].
           split; [| intros c' p' s' []].
           intros c' p' s' Hin Hc'. rewrite Hcs in Hin. apply in_app_or in Hin.
           destruct Hin as [Hin | [Heq | Hin]].
           ++ split.
              ** eapply better_not_trans; [exact Hb | eapply Hbefore; eassumption].
              ** intros Hnan. eapply better_weak; [exact Hb | eapply Hbefore; eassumption | exact Hnan].
           ++ subst c'. rewrite Hc0 in Hc'. injection Hc' as _ Hs.
              split; [rewrite <- Hs; apply better_asym, Hb | intros _; rewrite <- Hs; exact Hb].
           ++ split.
              ** eapply better_not_trans; [exact Hb | eapply Hafter; eassumption].
              ** intros Hnan. eapply better_weak; [exact Hb | eapply Hafter; eassumption | exact Hnan].
        -- rewrite (keep_best_worse _ Hc Hb).
           exists cs1, c0, (cs2 ++ [c]). rewrite Hcs, <- app_assoc. simpl.
           split; [reflexivity |]. split; [exact Hc0 |]. split; [exact Hinit |].
           split; [exact Hbefore |].
           intros c' p' s' Hin Hc'. apply in_app_or in Hin.
           destruct Hin as [Hin | [Heq | []]]; [eapply Hafter; eassumption |].
           subst c'. rewrite Hc in Hc'. injection Hc' as _ Hs. subst s'. exact Hb.
      * rewrite (keep_best_none _ Hc).
        exists cs1, c0, (cs2 ++ [c]). rewrite Hcs, <- app_assoc. simpl.
        split; [reflexivity |]. split; [exact Hc0 |]. split; [exact Hinit |].
        split; [exact Hbefore |].
        intros c' p' s' Hin Hc'. apply in_app_or in Hin.
        destruct Hin as [Hin | [Heq | []]]; [eapply Hafter; eassumption |].
        subst c'. rewrite Hc in Hc'. discriminate Hc'.
Qed.

(** No candidate is strictly better than the one kept. *)
Lemma first_best_none_better cs init p s :
  first_best better outcome cs init p s ->
  forall c' p' s', In c' cs -> outcome c' = Some (p', s') -> better s' s = false.
Proof.
  intros (cs1 & c & cs2 & Hcs & Hc & _ & Hbefore & Hafter) c' p' s' Hin Hc'.
  subst cs. apply in_app_or in Hin. destruct Hin as [Hin | [Heq | Hin]].
  - eapply Hbefore; eassumption.
  - subst c'. rewrite Hc in Hc'. injection Hc' as _ Hs. subst s'. apply better_irrefl.
  - eapply Hafter; eassumption.
Qed.

End KeepBestFacts.

(** ** Comparisons of scalars *)

Lemma Num_lt_irrefl x : Num.lt x x = false.
Proof. apply F64Facts.ltb_irrefl. Qed.

Lemma Num_lt_trans x y z :
  Num.lt x y = true -> Num.lt y z = true -> Num.lt x z = true.
Proof. apply F64Facts.ltb_trans. Qed.

Lemma Num_lt_weak x y z :
  Num.lt x y = true -> Num.lt z y = false -> Num.is_nan z = false ->
  Num.lt x z = true.
Proof.
  unfold Num.lt, Num.is_nan. intros Hxy Hzy Hz.
  apply F64Facts.ltb_leb_trans with (val y); [exact Hxy |].
  apply F64Facts.leb_total; [exact Hz | | exact Hzy].
  apply F64Facts.ltb_not_nan in Hxy. tauto.
Qed.

Lemma Num_gt_irrefl x : Num.gt x x = false.
Proof. apply F64Facts.ltb_irrefl. Qed.

Lemma Num_gt_trans x y z :
  Num.gt x y = true -> Num.gt y z = true -> Num.gt x z = true.
Proof. unfold Num.gt. intros Hxy Hyz. eapply Num_lt_trans; eassumption. Qed.

Lemma Num_gt_weak x y z :
  Num.gt x y = true -> Num.gt z y = false -> Num.is_nan z = false ->
  Num.gt x z = true.
Proof.
  unfold Num.gt, Num.lt, Num.is_nan. intros Hxy Hzy Hz.
  apply F64Facts.leb_ltb_trans with (val y); [| exact Hxy].
  apply F64Facts.leb_total; [| exact Hz | exact Hzy].
  apply F64Facts.ltb_not_nan in Hxy. tauto.
Qed.

(** A score that is a number and not strictly below another is above or
    equal to it. *)
Lemma Num_le_of_not_lt x y :
  Num.lt y x = false -> Num.is_nan x = false -> Num.is_nan y = false ->
  Num.le x y = true.
Proof.
  unfold Num.le, Num.lt, Num.is_nan. intros H Hx Hy.
  apply F64Facts.leb_total; assumption.
Qed.

Lemma Num_lt_not_nan x y :
  Num.lt x y = true -> Num.is_nan x = false /\ Num.is_nan y = false.
Proof. apply F64Facts.ltb_not_nan. Qed.

(** ** Ranges and folds *)

Lemma In_py_range (a b n : Z) : In n (py_range a b) <-> (a <= n < b)%Z.
Proof.
  unfold py_range. rewrite in_map_iff. split.
  - intros (i & Hi & Hin). apply in_seq in Hin. lia.
  - intros H. exists (Z.to_nat (n - a)). split; [lia |].
    apply in_seq. lia.
Qed.

Lemma fold_left_ext {A B : Type} (f g : A -> B -> A) :
  (forall a b, f a b = g a b) ->
  forall l a, fold_left f l a = fold_left g l a.
Proof.
  intros H l. induction l as [| b l IH]; intros a; simpl; [reflexivity |].
  rewrite H. apply IH.
Qed.

(** ** The selectors *)

Section SelectorFacts.

Variable L : Library.
Variable self : ModelSelector.

Lemma score_of_Return (m : option (model L)) (X0 : ndarray) (l0 : list Z) (s : scalar) :
  score_of L m X0 l0 = Return s ->
  exists hm, m = Some hm /\ hmm_score L hm X0 l0 = Return s.
Proof.
  destruct m as [hm |]; simpl; intros H; [| discriminate H].
  exists hm. split; [reflexivity | exact H].
Qed.

(** *** BIC *)

Lemma bic_step_keep_best acc n :
  bic_step L self acc n = keep_best Num.lt (bic_outcome L self) acc n.
Proof.
  unfold bic_step, keep_best, bic_outcome.
  destruct (bic_candidate L self n) as [[m b] | e]; reflexivity.
Qed.

Lemma bic_search_keep_best cs :
  bic_search L self cs =
  fold_left (keep_best Num.lt (bic_outcome L self)) cs (None, pyfloat infinity).
Proof. unfold bic_search. apply fold_left_ext, bic_step_keep_best. Qed.

(** A candidate whose block completes has a model, a log-likelihood and
    the score [-2 * logL + p * log N]. *)
Lemma bic_candidate_inv n m b :
  bic_candidate L self n = Return (m, b) ->
  exists hm logL penalty,
    m = Some hm /\
    base_model L self n = Return (Some hm) /\
    hmm_score L hm (X self) (lengths self) = Return logL /\
    Num.int_mul (n * (n - 1) + (n - 1) + 2 * snd (shape (X self)) * n)
      (npfloat (np_log L (fst (shape (X self))))) = Return penalty /\
    b = Num.add (Num.mul (pyfloat (-2)) logL) penalty.
Proof.
  unfold bic_candidate. intros H.
  apply bind_Return_inv in H. destruct H as (model & Hbm & H).
  apply bind_Return_inv in H. destruct H as (logL & Hs & H).
  apply bind_Return_inv in H. destruct H as (bic & Hb & H).
  injection H as Hm Hbic. subst bic.
  apply score_of_Return in Hs. destruct Hs as (hm & Ehm & Hs).
  unfold bic_score, bic_params in Hb.
  apply bind_Return_inv in Hb. destruct Hb as (pen & Hpen & Hb).
  injection Hb as Hb.
  exists hm, logL, pen. rewrite <- Hm, <- Ehm. auto.
Qed.

(** C1 (amended): [SelectorBIC.select] returns [None] when no candidate of
    the range completes with a BIC score below plus infinity; otherwise it
    returns the model fitted for a state count [n] of the range whose score
    [-2 * logL + p * log N], with [p = n * (n - 1) + (n - 1) + 2 * D * n],
    is below plus infinity, is not strictly above the score of any
    candidate that completes, and is less than or equal to each such score
    that is a number. *)
Theorem SelectorBIC_select_minimal :
  ((forall n m b, in_range self n -> bic_candidate L self n = Return (m, b) ->
      Num.lt b (pyfloat infinity) = false) /\
   SelectorBIC_select L self = Return None)
  \/
  (exists n hm logL penalty,
     in_range self n /\
     SelectorBIC_select L self = Return (Some hm) /\
     base_model L self n = Return (Some hm) /\
     hmm_score L hm (X self) (lengths self) = Return logL /\
     Num.int_mul (n * (n - 1) + (n - 1) + 2 * snd (shape (X self)) * n)
       (npfloat (np_log L (fst (shape (X self))))) = Return penalty /\
     let bic := Num.add (Num.mul (pyfloat (-2)) logL) penalty in
     Num.lt bic (pyfloat infinity) = true /\
     forall n' m' b',
       in_range self n' -> bic_candidate L self n' = Return (m', b') ->
       Num.lt b' bic = false /\ (Num.is_nan b' = false -> Num.le bic b' = true)).
Proof.
  unfold SelectorBIC_select. rewrite bic_search_keep_best.
  set (cands := py_range (min_n_components self) (max_n_components self + 1)).
  assert (Hcands : forall n, in_range self n <-> In n cands).
  { intros n. unfold cands, in_range. rewrite In_py_range. lia. }
  destruct (@keep_best_fold _ _ Num.lt (bic_outcome L self) Num_lt_irrefl
              Num_lt_trans Num_lt_weak cands (None, pyfloat infinity))
    as [[Hfin Hnone] | Hfb].
  - left. rewrite Hfin. split; [| reflexivity].
    intros n m b Hn Hc. apply (Hnone n m b); [apply Hcands, Hn |].
    unfold bic_outcome. rewrite Hc. reflexivity.
  - right.
    pose proof (@first_best_none_better _ _ Num.lt (bic_outcome L self)
                  Num_lt_irrefl _ _ _ _ Hfb) as Hmin.
    destruct Hfb as (cs1 & n & cs2 & Hcs & Hc & Hinit & _ & _).
    set (final := fold_left (keep_best Num.lt (bic_outcome L self)) cands
                    (None, pyfloat infinity)) in *.
    unfold bic_outcome in Hc.
    destruct (bic_candidate L self n) as [[m b] | e] eqn:Hcand; [| discriminate Hc].
    injection Hc as Hm Hb.
    destruct (bic_candidate_inv _ Hcand) as (hm & logL & pen & Em & Ebm & Es & Ep & Eb).
    exists n, hm, logL, pen.
    assert (Ebic : snd final = Num.add (Num.mul (pyfloat (-2)) logL) pen) by congruence.
    split; [apply Hcands; rewrite Hcs; apply in_elt |].
    split; [rewrite <- Hm, Em; reflexivity |].
    split; [exact Ebm |]. split; [exact Es |]. split; [exact Ep |].
    cbv zeta. rewrite <- Ebic.
    split; [exact Hinit |].
    intros n' m' b' Hn' Hc'.
    assert (Hlt : Num.lt b' (snd final) = false).
    { apply (Hmin n' m' b'); [apply Hcands, Hn' |].
      unfold bic_outcome. rewrite Hc'. reflexivity. }
    split; [exact Hlt |].
    intros Hnan. apply Num_le_of_not_lt; [exact Hlt | | exact Hnan].
    apply Num_lt_not_nan in Hinit. tauto.
Qed.

(** *** Candidates that fail *)

Lemma keep_best_fold_none {P C : Type} (better : scalar -> scalar -> bool)
    (outcome : C -> option (P * scalar)) (cs : list C) (init : P * scalar) :
  (forall c, In c cs -> outcome c = None) ->
  fold_left (keep_best better outcome) cs init = init.
Proof.
  induction cs as [| c cs IH]; simpl; intros H; [reflexivity |].
  unfold keep_best at 2. rewrite (H c (or_introl eq_refl)).
  apply IH. intros c' Hc'. apply H. right. exact Hc'.
Qed.

(** A failing candidate is skipped: the search goes on as if it were not
    in the range. *)
Lemma keep_best_fold_skip {P C : Type} (better : scalar -> scalar -> bool)
    (outcome : C -> option (P * scalar)) (cs1 cs2 : list C) (c : C)
    (init : P * scalar) :
  outcome c = None ->
  fold_left (keep_best better outcome) (cs1 ++ c :: cs2) init =
  fold_left (keep_best better outcome) (cs1 ++ cs2) init.
Proof.
  intros H. rewrite !fold_left_app. simpl.
  unfold keep_best at 2. rewrite H. reflexivity.
Qed.

Lemma fit_and_score_raises {A : Type} n e (k : option (model L) -> scalar -> result A) :
  fit_and_score L self n = Raise e ->
  (model <- base_model L self n ;;
   logL <- score_of L model (X self) (lengths self) ;;
   k model logL) = Raise e.
Proof.
  unfold fit_and_score.
  destruct (base_model L self n) as [model | e']; simpl; intros He.
  - rewrite He. reflexivity.
  - injection He as He. rewrite He. reflexivity.
Qed.

Lemma bic_candidate_fails n :
  candidate_fails L self n -> bic_outcome L self n = None.
Proof.
  intros [e He]. unfold bic_outcome, bic_candidate.
  rewrite (fit_and_score_raises _ _ He). reflexivity.
Qed.

Lemma dic_candidate_fails n :
  candidate_fails L self n -> dic_outcome L self n = None.
Proof.
  intros [e He]. unfold dic_outcome, dic_candidate.
  rewrite (fit_and_score_raises _ _ He). reflexivity.
Qed.

(** *** DIC *)

Lemma dic_step_keep_best acc n :
  dic_step L self acc n = keep_best Num.gt (dic_outcome L self) acc n.
Proof.
  unfold dic_step, keep_best, dic_outcome.
  destruct (dic_candidate L self n) as [[m d] | e]; reflexivity.
Qed.

Lemma dic_search_keep_best cs :
  dic_search L self cs =
  fold_left (keep_best Num.gt (dic_outcome L self)) cs (None, pyfloat neg_infinity).
Proof. unfold dic_search. apply fold_left_ext, dic_step_keep_best. Qed.

Lemma SelectorBIC_select_all_fail :
  (forall n, in_range self n -> candidate_fails L self n) ->
  SelectorBIC_select L self = Return None.
Proof.
  intros H. unfold SelectorBIC_select. rewrite bic_search_keep_best.
  rewrite keep_best_fold_none; [reflexivity |].
  intros n Hn. apply bic_candidate_fails, H.
  apply In_py_range in Hn. unfold in_range. lia.
Qed.

Lemma SelectorDIC_select_no_outcome :
  (forall n, dic_outcome L self n = None) ->
  SelectorDIC_select L self = Return None.
Proof.
  intros H. unfold SelectorDIC_select. rewrite dic_search_keep_best.
  rewrite keep_best_fold_none; [reflexivity |]. intros n _. apply H.
Qed.

Lemma SelectorDIC_select_all_fail :
  (forall n, in_range self n -> candidate_fails L self n) ->
  SelectorDIC_select L self = Return None.
Proof.
  intros H. unfold SelectorDIC_select. rewrite dic_search_keep_best.
  rewrite keep_best_fold_none; [reflexivity |].
  intros n Hn. apply dic_candidate_fails, H.
  apply In_py_range in Hn. unfold in_range. lia.
Qed.

(** The kind of the sum follows the kinds of the scores. *)
Lemma sum_scores_python (m : option (model L)) (hw : dict Xlengths) :
  (forall hm X0 l0 s, hmm_score L hm X0 l0 = Return s -> is_numpy s = false) ->
  forall ws acc total,
    is_numpy acc = false ->
    sum_scores L m hw ws acc = Return total -> is_numpy total = false.
Proof.
  intros Hpy ws. induction ws as [| w ws IH]; simpl; intros acc total Hacc H.
  - injection H as H. subst total. exact Hacc.
  - apply bind_Return_inv in H. destruct H as (xl & _ & H).
    apply bind_Return_inv in H. destruct H as (s & Hs & H).
    apply score_of_Return in Hs. destruct Hs as (hm & _ & Hs).
    apply (IH (Num.add acc s) total); [| exact H].
    simpl. rewrite Hacc, (Hpy _ _ _ _ Hs). reflexivity.
Qed.

Lemma sum_scores_numpy (m : option (model L)) (hw : dict Xlengths) :
  (forall hm X0 l0 s, hmm_score L hm X0 l0 = Return s -> is_numpy s = true) ->
  forall ws acc total,
    ws <> [] \/ is_numpy acc = true ->
    sum_scores L m hw ws acc = Return total -> is_numpy total = true.
Proof.
  intros Hnp ws. induction ws as [| w ws IH]; simpl; intros acc total Hacc H.
  - injection H as H. subst total. destruct Hacc as [Hacc | Hacc]; [congruence | exact Hacc].
  - apply bind_Return_inv in H. destruct H as (xl & _ & H).
    apply bind_Return_inv in H. destruct H as (s & Hs & H).
    apply score_of_Return in Hs. destruct Hs as (hm & _ & Hs).
    apply (IH (Num.add acc s) total); [| exact H].
    right. simpl. rewrite (Hnp _ _ _ _ Hs). apply orb_true_r.
Qed.

Lemma of_int_zero : Num.of_int 0 = Return (pyfloat 0).
Proof. vm_compute. reflexivity. Qed.

(** *** CV *)

Lemma getattr_n_components : getattr self "n_components" = Raise AttributeError.
Proof. reflexivity. Qed.

Lemma cv_candidate_raises nComp : raises (cv_candidate L self nComp).
Proof.
  unfold cv_candidate.
  destruct (base_model L self nComp) as [model | e]; simpl;
    [| exists e; reflexivity].
  destruct (kfold_split L (n_splits L) (sequences self)) as [splits | e]; simpl;
    [| exists e; reflexivity].
  destruct (cv_folds L model (sequences self) splits [])
    as [folds | e]; simpl; [| exists e; reflexivity].
  exists NameError. reflexivity.
Qed.

Lemma cv_means_nil : cv_means L self = [].
Proof. unfold cv_means. rewrite getattr_n_components. reflexivity. Qed.

Lemma SelectorCV_select_fallback :
  SelectorCV_select L self = base_model L self (n_constant self).
Proof. unfold SelectorCV_select. rewrite cv_means_nil. reflexivity. Qed.

Lemma org_working_cv_means_nil : OrgWorking.cv_means L self = [].
Proof. unfold OrgWorking.cv_means. rewrite getattr_n_components. reflexivity. Qed.

Lemma org_working_SelectorCV_select_fallback :
  OrgWorking.SelectorCV_select L self = base_model L self (n_constant self).
Proof.
  unfold OrgWorking.SelectorCV_select. rewrite org_working_cv_means_nil. reflexivity.
Qed.

(** C8: [SelectorCV.select] returns what [SelectorConstant.select] returns:
    reading [self.n_components] raises [AttributeError] (and the body of the
    loop, which reads the unbound name [fold_scores], raises for every state
    count), the list of means stays empty and the result is that of
    [base_model] for [n_constant] on the data of the word.  The same holds
    for the class of the second file, where [fold_scores] is bound. *)
Theorem SelectorCV_select_is_constant :
  getattr self "n_components" = Raise AttributeError /\
  (forall nComp, raises (cv_candidate L self nComp)) /\
  cv_means L self = [] /\
  SelectorCV_select L self = base_model L self (n_constant self) /\
  SelectorCV_select L self = SelectorConstant_select L self /\
  OrgWorking.cv_means L self = [] /\
  OrgWorking.SelectorCV_select L self = SelectorConstant_select L self.
Proof.
  split; [apply getattr_n_components |].
  split; [apply cv_candidate_raises |].
  split; [apply cv_means_nil |].
  split; [apply SelectorCV_select_fallback |].
  split; [rewrite SelectorCV_select_fallback; reflexivity |].
  split; [apply org_working_cv_means_nil |].
  rewrite org_working_SelectorCV_select_fallback. reflexivity.
Qed.

(** C6: for a word with fewer sequences than the number of folds,
    [SelectorCV.select] returns what [SelectorConstant.select] returns, the
    result of [base_model] for [n_constant] on the data of the word. *)
Theorem SelectorCV_select_few_sequences :
  (List.length (sequences self) < n_splits L)%nat ->
  SelectorCV_select L self = SelectorConstant_select L self /\
  SelectorConstant_select L self = base_model L self (n_constant self).
Proof.
  intros _. split; [| reflexivity].
  rewrite SelectorCV_select_fallback. reflexivity.
Qed.

(** *** What [base_model] gives *)

Lemma print_if_verbose_quiet text :
  verbose self = false -> print_if_verbose L self text = Return tt.
Proof. unfold print_if_verbose. intros H. rewrite H. reflexivity. Qed.

Lemma print_succeeds_quiet n : verbose self = false -> print_succeeds L self n.
Proof. intros H. split; apply print_if_verbose_quiet, H. Qed.

(** When its two lines can be printed [base_model] gives the fitted model,
    or [None] when the fit raises. *)
Lemma base_model_printed n :
  print_succeeds L self n ->
  base_model L self n =
  Return (outcome_of (hmm_fit L n (random_state self) (X self) (lengths self))).
Proof.
  intros [Hc Hf]. unfold base_model.
  destruct (hmm_fit L n (random_state self) (X self) (lengths self)) as [hm | e];
    simpl.
  - rewrite Hc. reflexivity.
  - rewrite Hf. reflexivity.
Qed.

(** C7 (amended): [SelectorBIC.select] and [SelectorDIC.select] never
    raise, an exception that leaves [base_model] being caught in the
    candidate's [try] like any other, with the best pair left as it is;
    [SelectorConstant.select] and [SelectorCV.select] give what
    [base_model] gives for [n_constant] and do not raise when the lines
    [base_model] prints for it are printed without an exception, as they
    are when [verbose] is off.  When every candidate of the range fails to
    fit or to score, [SelectorBIC] and [SelectorDIC] return [None], while
    [SelectorConstant] and [SelectorCV], their lines printed, return what
    fitting [n_constant] gives, a state count that is not scored and need
    not be in the range: its model, or [None] when that fit raises. *)
Theorem select_never_raises (s : strategy) :
  match s with
  | BIC | DIC => exists r, select L s self = Return r
  | Constant | CV =>
      select L s self = base_model L self (n_constant self) /\
      (print_succeeds L self (n_constant self) ->
       exists r, select L s self = Return r) /\
      (verbose self = false -> exists r, select L s self = Return r)
  end /\
  (forall acc n e,
     base_model L self n = Raise e ->
     bic_step L self acc n = acc /\ dic_step L self acc n = acc) /\
  ((forall n, in_range self n -> candidate_fails L self n) ->
   match s with
   | BIC | DIC => select L s self = Return None
   | Constant | CV =>
       print_succeeds L self (n_constant self) ->
       select L s self =
       Return (outcome_of (hmm_fit L (n_constant self) (random_state self)
                             (X self) (lengths self)))
   end).
Proof.
  assert (Hret : print_succeeds L self (n_constant self) ->
                 exists r, base_model L self (n_constant self) = Return r).
  { intros Hp. rewrite (base_model_printed Hp). eexists. reflexivity. }
  assert (Hcaught : forall acc n e,
            base_model L self n = Raise e ->
            bic_step L self acc n = acc /\ dic_step L self acc n = acc).
  { intros acc n e He.
    unfold bic_step, bic_candidate, dic_step, dic_candidate.
    rewrite He. split; reflexivity. }
  destruct s; simpl.
  - unfold SelectorConstant_select. split; [| split; [exact Hcaught |]].
    + split; [reflexivity |]. split; [exact Hret |].
      intros Hq. apply Hret, print_succeeds_quiet, Hq.
    + intros _ Hp. apply base_model_printed, Hp.
  - split; [eexists; reflexivity |]. split; [exact Hcaught |].
    apply SelectorBIC_select_all_fail.
  - split; [eexists; reflexivity |]. split; [exact Hcaught |].
    apply SelectorDIC_select_all_fail.
  - rewrite SelectorCV_select_fallback. split; [| split; [exact Hcaught |]].
    + split; [reflexivity |]. split; [exact Hret |].
      intros Hq. apply Hret, print_succeeds_quiet, Hq.
    + intros _ Hp. apply base_model_printed, Hp.
Qed.

(** C10 (amended): with exactly one word in the dataset the denominator
    [len(self.words) - 1] is zero and nothing guards the division.  When
    the scores are Python floats the division raises [ZeroDivisionError]
    for every candidate that fits and scores, no candidate completes and
    the result is [None]; when they are numpy scalars the division does not
    raise and a candidate that fits and scores completes, with the score
    [logL - sumAllLogL / 0]. *)
Theorem SelectorDIC_select_single_item :
  List.length (words self) = 1%nat ->
  ((forall hm X0 l0 s, hmm_score L hm X0 l0 = Return s -> is_numpy s = false) ->
   (forall n m logL total,
      base_model L self n = Return m ->
      score_of L m (X self) (lengths self) = Return logL ->
      sum_scores L m (hwords self) (dict_keys (words self)) (pyfloat 0)
        = Return total ->
      dic_candidate L self n = Raise ZeroDivisionError) /\
   (forall n, raises (dic_candidate L self n)) /\
   SelectorDIC_select L self = Return None)
  /\
  ((forall hm X0 l0 s, hmm_score L hm X0 l0 = Return s -> is_numpy s = true) ->
   forall n m logL total,
     base_model L self n = Return m ->
     score_of L m (X self) (lengths self) = Return logL ->
     sum_scores L m (hwords self) (dict_keys (words self)) (pyfloat 0)
       = Return total ->
     dic_candidate L self n =
     Return (m, Num.sub logL (Num.div total (pyfloat 0)))).
Proof.
  intros Hlen.
  assert (Hden : (dict_len (words self) - 1 = 0)%Z).
  { unfold dict_len. rewrite Hlen. reflexivity. }
  split.
  - intros Hpy.
    assert (Hzero : forall n m logL total,
      base_model L self n = Return m ->
      score_of L m (X self) (lengths self) = Return logL ->
      sum_scores L m (hwords self) (dict_keys (words self)) (pyfloat 0)
        = Return total ->
      dic_candidate L self n = Raise ZeroDivisionError).
    { intros n m logL total Hm Hs Hsum. unfold dic_candidate.
      rewrite Hm. simpl. rewrite Hs. simpl. rewrite Hsum. simpl. rewrite Hden.
      unfold Num.truediv_int.
      assert (Hk : is_numpy total = false).
      { eapply sum_scores_python; [exact Hpy | | exact Hsum]. reflexivity. }
      rewrite Hk. reflexivity. }
    assert (Hraise : forall n, raises (dic_candidate L self n)).
    { intros n.
      destruct (base_model L self n) as [m | e] eqn:Hm;
        [| exists e; unfold dic_candidate; rewrite Hm; reflexivity].
      destruct (score_of L m (X self) (lengths self)) as [logL | e] eqn:Hs.
      - destruct (sum_scores L m (hwords self)
                    (dict_keys (words self)) (pyfloat 0)) as [total | e] eqn:Hsum.
        + exists ZeroDivisionError. eapply Hzero; eassumption.
        + exists e. unfold dic_candidate. rewrite Hm. simpl. rewrite Hs. simpl.
          rewrite Hsum. reflexivity.
      - exists e. unfold dic_candidate. rewrite Hm. simpl. rewrite Hs. reflexivity. }
    split; [exact Hzero |]. split; [exact Hraise |].
    apply SelectorDIC_select_no_outcome. intros n.
    destruct (Hraise n) as [e He]. unfold dic_outcome. rewrite He. reflexivity.
  - intros Hnp n m logL total Hm Hs Hsum. unfold dic_candidate.
    rewrite Hm. simpl. rewrite Hs. simpl. rewrite Hsum. simpl. rewrite Hden.
    unfold Num.truediv_int.
    assert (Hk : is_numpy total = true).
    { eapply sum_scores_numpy; [exact Hnp | | exact Hsum]. left.
      unfold dict_keys. destruct (words self); [discriminate Hlen | discriminate]. }
    rewrite Hk, of_int_zero. reflexivity.
Qed.

End SelectorFacts.

(** ** The recognizer *)

Section RecognizerFacts.

Variable L : Library.

Lemma dict_set_fresh {V : Type} (d : dict V) (k : string) (v : V) :
  ~ In k (dict_keys d) -> dict_set d k v = d ++ [(k, v)].
Proof.
  unfold dict_set, dict_keys.
  induction d as [| [k' v'] d IH]; simpl; intros H; [reflexivity |].
  destruct (String.eqb_spec k k') as [E | E]; [exfalso; apply H; left; auto |].
  rewrite IH; [reflexivity |]. intros Hin. apply H. right. exact Hin.
Qed.

Section OneSequence.

Variables (X : ndarray) (lengths : list Z).

Let rec := recorded_score L X lengths.
Let record (prob : dict scalar) (item : string * option (model L)) : dict scalar :=
  dict_set prob (fst item) (rec (snd item)).

Lemma recognize_step_pair prob best item :
  recognize_step L X lengths (prob, best) item =
  (record prob item, keep_best Num.gt (recognize_outcome L X lengths) best item).
Proof. destruct item as [word m]. reflexivity. Qed.

Lemma recognize_fold_pair models prob best :
  fold_left (recognize_step L X lengths) models (prob, best) =
  (fold_left record models prob,
   fold_left (keep_best Num.gt (recognize_outcome L X lengths)) models best).
Proof.
  revert prob best.
  induction models as [| item models IH]; intros prob best; cbn [fold_left].
  - reflexivity.
  - rewrite recognize_step_pair. apply IH.
Qed.

Lemma record_fold_fresh models prob :
  NoDup (dict_keys prob ++ dict_keys models) ->
  fold_left record models prob =
  prob ++ map (fun item => (fst item, rec (snd item))) models.
Proof.
  revert prob. induction models as [| item models IH]; intros prob H; simpl.
  - rewrite app_nil_r. reflexivity.
  - unfold record at 2. rewrite dict_set_fresh.
    + rewrite IH.
      * rewrite <- app_assoc. reflexivity.
      * unfold dict_keys in *. rewrite map_app. simpl in *.
        rewrite <- app_assoc. simpl. exact H.
    + unfold dict_keys in *. simpl in H.
      apply NoDup_remove_2 in H. intros Hin. apply H.
      apply in_or_app. left. exact Hin.
Qed.

Lemma prob_entries models :
  NoDup (dict_keys models) ->
  prob L models X lengths =
  map (fun item => (fst item, rec (snd item))) models.
Proof.
  intros H. unfold prob, recognize_sequence.
  rewrite recognize_fold_pair. simpl.
  apply (record_fold_fresh models []). exact H.
Qed.

Lemma guess_fold models :
  guess L models X lengths =
  fst (fold_left (keep_best Num.gt (recognize_outcome L X lengths)) models
         (""%string, pyfloat neg_infinity)).
Proof.
  unfold guess, recognize_sequence. rewrite recognize_fold_pair. reflexivity.
Qed.

Lemma recorded_failure m :
  raises (score_of L m X lengths) -> rec m = pyfloat neg_infinity.
Proof. intros [e He]. unfold rec, recorded_score. rewrite He. reflexivity. Qed.

End OneSequence.

Lemma recognize_loop_aligned models allXlength keys xls :
  Forall2 (fun key xl => assoc_get Z.eqb allXlength key = Return xl) keys xls ->
  forall probabilities guesses,
    recognize_loop L models allXlength keys probabilities guesses =
    Return (probabilities ++ map (fun xl => prob L models (fst xl) (snd xl)) xls,
            guesses ++ map (fun xl => guess L models (fst xl) (snd xl)) xls).
Proof.
  induction 1 as [| key xl keys xls Hkey _ IH]; intros probabilities guesses; simpl.
  - rewrite !app_nil_r. reflexivity.
  - rewrite Hkey. simpl. destruct xl as [X0 l0].
    unfold prob, guess. simpl.
    destruct (recognize_sequence L models X0 l0) as [p g] eqn:E.
    rewrite IH. simpl. rewrite <- !app_assoc. reflexivity.
Qed.

(** C4 (amended): [recognize] gives one dictionary of scores and one guess
    per test item, in the order of the test items, when each item has its
    [(X, lengths)] entry.  For each item the dictionary has one entry per
    model, in the order of the mapping, holding the score of the model or
    minus infinity when scoring it raises.  When some recorded score is
    greater than minus infinity the guess is the name of a model whose
    score is greater than minus infinity, which no recorded score exceeds,
    which is greater than or equal to every recorded score that is a
    number, and which is strictly greater than every such score recorded
    before it; otherwise the guess is the empty string. *)
Theorem recognize_guess_first_maximal
    (models : dict (option (model L))) (test_set : SinglesData)
    (xls : list Xlengths) :
  NoDup (dict_keys models) ->
  Forall2 (fun key xl => assoc_get Z.eqb (get_all_Xlengths test_set) key = Return xl)
    (map fst (get_all_sequences test_set)) xls ->
  recognize L models test_set =
    Return (map (fun xl => prob L models (fst xl) (snd xl)) xls,
            map (fun xl => guess L models (fst xl) (snd xl)) xls) /\
  forall X lengths,
    let rec := recorded_score L X lengths in
    (forall m, raises (score_of L m X lengths) -> rec m = pyfloat neg_infinity) /\
    prob L models X lengths = map (fun item => (fst item, rec (snd item))) models /\
    (((forall w m, In (w, m) models -> Num.gt (rec m) (pyfloat neg_infinity) = false) /\
      guess L models X lengths = ""%string)
     \/
     (exists pre w m post,
        models = pre ++ (w, m) :: post /\
        guess L models X lengths = w /\
        Num.gt (rec m) (pyfloat neg_infinity) = true /\
        (forall w' m', In (w', m') models ->
           Num.gt (rec m') (rec m) = false /\
           (Num.is_nan (rec m') = false -> Num.le (rec m') (rec m) = true)) /\
        (forall w' m', In (w', m') pre -> Num.is_nan (rec m') = false ->
           Num.lt (rec m') (rec m) = true))).
Proof.
  intros Hnodup Hkeys. split.
  - unfold recognize. exact (@recognize_loop_aligned models _ _ _ Hkeys [] []).
  - intros X lengths rec. subst rec.
    split; [apply recorded_failure |].
    split; [apply prob_entries, Hnodup |].
    rewrite guess_fold.
    destruct (@keep_best_fold _ _ Num.gt (recognize_outcome L X lengths)
                Num_gt_irrefl Num_gt_trans Num_gt_weak models
                (""%string, pyfloat neg_infinity)) as [[Hfin Hnone] | Hfb].
    + left. rewrite Hfin. split; [| reflexivity].
      intros w m Hin.
      apply (Hnone (w, m) w (recorded_score L X lengths m) Hin). reflexivity.
    + right.
      pose proof (@first_best_none_better _ _ Num.gt (recognize_outcome L X lengths)
                    Num_gt_irrefl _ _ _ _ Hfb) as Hmax.
      destruct Hfb as (pre & [w m] & post & Hms & Hc & Hinit & Hbefore & _).
      remember (fold_left (keep_best Num.gt (recognize_outcome L X lengths)) models
                  (""%string, pyfloat neg_infinity)) as final eqn:Ef.
      unfold recognize_outcome in Hc. cbn [fst snd] in Hc. injection Hc as Hw Hs.
      cbn [snd] in Hinit. rewrite <- Hs in Hinit.
      exists pre, w, m, post.
      split; [exact Hms |]. split; [symmetry; exact Hw |].
      split; [exact Hinit |]. split.
      * intros w' m' Hin.
        assert (Hgt : Num.gt (recorded_score L X lengths m')
                        (recorded_score L X lengths m) = false).
        { rewrite Hs.
          apply (Hmax (w', m') w' (recorded_score L X lengths m') Hin). reflexivity. }
        split; [exact Hgt |]. intros Hnan.
        apply Num_le_of_not_lt; [exact Hgt | exact Hnan |].
        apply Num_lt_not_nan in Hinit. tauto.
      * intros w' m' Hin Hnan.
        destruct (Hbefore (w', m') w' (recorded_score L X lengths m') Hin eq_refl)
          as [_ Hlt].
        rewrite Hs. apply Hlt. exact Hnan.
Qed.

(** C9 (amended): when scoring raises for every model of the mapping (and
    when the mapping is empty) every recorded score is minus infinity and
    the guess is the empty string, which is the name of no model provided
    no model is registered under the empty string. *)
Theorem recognize_all_fail (models : dict (option (model L)))
    (X : ndarray) (lengths : list Z) :
  NoDup (dict_keys models) ->
  (forall w m, In (w, m) models -> raises (score_of L m X lengths)) ->
  prob L models X lengths =
    map (fun item => (fst item, pyfloat neg_infinity)) models /\
  guess L models X lengths = ""%string /\
  (~ In ""%string (dict_keys models) ->
   ~ In (guess L models X lengths) (dict_keys models)).
Proof.
  intros Hnodup Hfail.
  assert (Hrec : forall w m, In (w, m) models ->
            recorded_score L X lengths m = pyfloat neg_infinity).
  { intros w m Hin. apply recorded_failure. eapply Hfail, Hin. }
  assert (Hguess : guess L models X lengths = ""%string).
  { rewrite guess_fold.
    destruct (@keep_best_fold _ _ Num.gt (recognize_outcome L X lengths)
                Num_gt_irrefl Num_gt_trans Num_gt_weak models
                (""%string, pyfloat neg_infinity)) as [[Hfin _] | Hfb].
    - rewrite Hfin. reflexivity.
    - exfalso. destruct Hfb as (pre & [w m] & post & Hms & Hc & Hinit & _).
      remember (fold_left (keep_best Num.gt (recognize_outcome L X lengths)) models
                  (""%string, pyfloat neg_infinity)) as final eqn:Ef.
      unfold recognize_outcome in Hc. cbn [fst snd] in Hc. injection Hc as _ Hs.
      rewrite (Hrec w m) in Hs; [| rewrite Hms; apply in_elt].
      cbn [snd] in Hinit. rewrite <- Hs in Hinit.
      rewrite Num_gt_irrefl in Hinit. discriminate Hinit. }
  split.
  - rewrite (@prob_entries X lengths models Hnodup). apply map_ext_in.
    intros [w m] Hin. simpl. rewrite (Hrec w m Hin). reflexivity.
  - split; [exact Hguess |]. rewrite Hguess. auto.
Qed.

End RecognizerFacts.

(** ** The searches of BIC and DIC skip a failing candidate *)

Section Skipping.

Variable L : Library.
Variable self : ModelSelector.

Lemma bic_search_skip cs1 n cs2 :
  candidate_fails L self n ->
  bic_search L self (cs1 ++ n :: cs2) = bic_search L self (cs1 ++ cs2).
Proof.
  intros H. rewrite !bic_search_keep_best.
  apply keep_best_fold_skip, bic_candidate_fails, H.
Qed.

Lemma dic_search_skip cs1 n cs2 :
  candidate_fails L self n ->
  dic_search L self (cs1 ++ n :: cs2) = dic_search L self (cs1 ++ cs2).
Proof.
  intros H. rewrite !dic_search_keep_best.
  apply keep_best_fold_skip, dic_candidate_fails, H.
Qed.

(** The model [SelectorDIC.select] returns has a score, as the code
    computes it, that no candidate's score exceeds. *)
Lemma SelectorDIC_select_maximal :
  ((forall n m d, in_range self n -> dic_candidate L self n = Return (m, d) ->
      Num.gt d (pyfloat neg_infinity) = false) /\
   SelectorDIC_select L self = Return None)
  \/
  (exists n m d,
     in_range self n /\
     dic_candidate L self n = Return (m, d) /\
     SelectorDIC_select L self = Return m /\
     Num.gt d (pyfloat neg_infinity) = true /\
     forall n' m' d',
       in_range self n' -> dic_candidate L self n' = Return (m', d') ->
       Num.gt d' d = false).
Proof.
  unfold SelectorDIC_select. rewrite dic_search_keep_best.
  set (cands := py_range (min_n_components self) (max_n_components self + 1)).
  assert (Hcands : forall n, in_range self n <-> In n cands).
  { intros n. unfold cands, in_range. rewrite In_py_range. lia. }
  destruct (@keep_best_fold _ _ Num.gt (dic_outcome L self) Num_gt_irrefl
              Num_gt_trans Num_gt_weak cands (None, pyfloat neg_infinity))
    as [[Hfin Hnone] | Hfb].
  - left. rewrite Hfin. split; [| reflexivity].
    intros n m d Hn Hc. apply (Hnone n m d); [apply Hcands, Hn |].
    unfold dic_outcome. rewrite Hc. reflexivity.
  - right.
    pose proof (@first_best_none_better _ _ Num.gt (dic_outcome L self)
                  Num_gt_irrefl _ _ _ _ Hfb) as Hmax.
    destruct Hfb as (cs1 & n & cs2 & Hcs & Hc & Hinit & _ & _).
    remember (fold_left (keep_best Num.gt (dic_outcome L self)) cands
                (None, pyfloat neg_infinity)) as final eqn:Ef.
    unfold dic_outcome in Hc.
    destruct (dic_candidate L self n) as [[m d] | e] eqn:Hcand; [| discriminate Hc].
    injection Hc as Hm Hd.
    exists n, m, d.
    split; [apply Hcands; rewrite Hcs; apply in_elt |].
    split; [exact Hcand |].
    split; [rewrite Hm; reflexivity |].
    cbn [snd] in Hinit. rewrite <- Hd in Hinit.
    split; [exact Hinit |].
    intros n' m' d' Hn' Hc'. rewrite Hd.
    apply (Hmax n' m' d'); [apply Hcands, Hn' |].
    unfold dic_outcome. rewrite Hc'. reflexivity.
Qed.

End Skipping.

(** ** Runs *)

(** C1, refuted as worded: the only candidate fits and scores, its
    log-likelihood is minus infinity and its BIC plus infinity, and
    [SelectorBIC.select] returns [None]. *)
Lemma bic_minimal_refuted :
  exists self,
    Runs.selector [("A"%string, [Runs.one])] "A" 3 2 2 = Return self /\
    ~ bic_minimal_as_stated Runs.impossible self.
Proof.
  eexists. split; [reflexivity |].
  intros H. destruct H as (n & hm & b & _ & _ & Hsel & _).
  - exists 2%Z, (Some 2%Z), (npfloat infinity).
    split; [unfold in_range; simpl; lia | vm_compute; reflexivity].
  - vm_compute in Hsel. discriminate Hsel.
Qed.

(** C2: with the words [A] and [B] the code subtracts the sum of the
    scores on [A] and [B] from the score on [A], the docstring's formula
    subtracts the score on [B] only; the code selects three states where
    the formula selects two. *)
Theorem SelectorDIC_sums_own_word :
  exists self,
    Runs.selector [("A"%string, [Runs.one]); ("B"%string, [Runs.two])] "A" 3 2 3
      = Return self /\
    dic_candidate Runs.crossed self 2 = Return (Some 2%Z, npfloat 20) /\
    dic_documented_candidate Runs.crossed self 2 = Return (Some 2%Z, npfloat 10) /\
    dic_candidate Runs.crossed self 3 = Return (Some 3%Z, npfloat 25) /\
    dic_documented_candidate Runs.crossed self 3 = Return (Some 3%Z, npfloat (-15)) /\
    SelectorDIC_select Runs.crossed self = Return (Some 3%Z) /\
    SelectorDIC_documented Runs.crossed self = Return (Some 2%Z).
Proof.
  eexists. split; [reflexivity |].
  repeat split; vm_compute; reflexivity.
Qed.

(** C3: two states cannot be fitted, three states fit and score, also on
    every fold; [SelectorCV.select] evaluates no candidate and returns
    [None], where [SelectorBIC.select] and [SelectorDIC.select] skip the
    failing candidate and return the model of three states.  The
    [SelectorBIC.select] of the second file, with one [try] around its
    loop, stops at the failing candidate and returns [None] too. *)
Theorem SelectorCV_stops_at_first_failure :
  exists self,
    Runs.selector [("A"%string, [Runs.one; Runs.one; Runs.one]);
                   ("B"%string, [Runs.two])] "A" 2 2 3 = Return self /\
    candidate_fails (Runs.only 3) self 2 /\
    base_model (Runs.only 3) self 3 = Return (Some 3%Z) /\
    fit_and_score (Runs.only 3) self 3 = Return (npfloat (-10)) /\
    cv_documented_candidate (Runs.only 3) self 3 = Return (npfloat (-10)) /\
    cv_means (Runs.only 3) self = [] /\
    SelectorCV_select (Runs.only 3) self = Return None /\
    SelectorBIC_select (Runs.only 3) self = Return (Some 3%Z) /\
    SelectorDIC_select (Runs.only 3) self = Return (Some 3%Z) /\
    OrgWorking.SelectorBIC_select (Runs.only 3) self = Return None.
Proof.
  eexists. split; [reflexivity |].
  split; [exists AttributeError; vm_compute; reflexivity |].
  repeat split; vm_compute; reflexivity.
Qed.

(** C4, refuted as worded: scoring the only model [A] raises, its score
    is recorded as minus infinity and is maximal, and the guess is the
    empty string, not [A]. *)
Lemma guess_first_maximal_refuted :
  exists X lengths,
    Table.stack [Runs.one] = (X, lengths) /\
    ~ guess_first_maximal_as_stated Runs.unscorable
        [("A"%string, Some 2%Z)] X lengths.
Proof.
  eexists. eexists. split; [reflexivity |].
  intros H. destruct H as (pre & m & post & Hms & _); [discriminate |].
  vm_compute in Hms.
  destruct pre as [| item pre]; simpl in Hms; [discriminate Hms |].
  destruct pre; discriminate Hms.
Qed.

(** C5: three sequences, three folds, every fit succeeds and two states
    score best on every held-out fold; cross-validation as documented
    returns the model of two states, [SelectorCV.select] collects no mean
    and returns the model of [n_constant = 3] states. *)
Theorem SelectorCV_ignores_folds :
  exists self,
    Runs.selector [("A"%string, [Runs.one; Runs.one; Runs.one])] "A" 3 2 3
      = Return self /\
    cv_documented_candidate Runs.two_is_best self 2 = Return (npfloat (-5)) /\
    cv_documented_candidate Runs.two_is_best self 3 = Return (npfloat (-9)) /\
    SelectorCV_documented Runs.two_is_best self = Return (Some 2%Z) /\
    cv_means Runs.two_is_best self = [] /\
    SelectorCV_select Runs.two_is_best self = Return (Some 3%Z).
Proof.
  eexists. split; [reflexivity |].
  repeat split; vm_compute; reflexivity.
Qed.

(** C6 at a word with one sequence and three folds. *)
Lemma SelectorCV_select_few_sequences_witness :
  exists self,
    Runs.selector [("A"%string, [Runs.one])] "A" 3 2 3 = Return self /\
    (List.length (sequences self) < n_splits Runs.flat_np)%nat /\
    SelectorCV_select Runs.flat_np self = SelectorConstant_select Runs.flat_np self /\
    SelectorConstant_select Runs.flat_np self
      = base_model Runs.flat_np self (n_constant self).
Proof.
  eexists. split; [reflexivity |].
  split; [simpl; lia |].
  apply SelectorCV_select_few_sequences. simpl. lia.
Defined.

(** C7, refuted as worded, at two inputs.  With [verbose] set, a word that
    [sys.stdout] cannot encode and fits that all succeed, the line about
    the created model raises inside [base_model], so does the line of its
    [except] clause, and [SelectorConstant.select] raises, where
    [SelectorBIC.select] swallows the exception and returns [None].  With
    [verbose] off, no state count of the range 2..3 can be fitted,
    [n_constant = 5] can, and [SelectorConstant.select] returns its
    model. *)
Lemma select_total_refuted :
  (exists self,
     Runs.verbose_selector [(Runs.accented, [Runs.one])] Runs.accented 3 2 3
       = Return self /\
     select Runs.ascii_flat Constant self = Raise UnicodeEncodeError /\
     select Runs.ascii_flat BIC self = Return None /\
     ~ select_total_as_stated Runs.ascii_flat self) /\
  (exists self,
     Runs.selector [("A"%string, [Runs.one])] "A" 5 2 3 = Return self /\
     (forall n, in_range self n -> candidate_fails (Runs.only 5) self n) /\
     select (Runs.only 5) Constant self = Return (Some 5%Z) /\
     ~ select_total_as_stated (Runs.only 5) self).
Proof.
  split.
  - eexists. split; [reflexivity |].
    split; [vm_compute; reflexivity |].
    split; [vm_compute; reflexivity |].
    intros H. destruct (H Constant) as [[r Hr] _].
    vm_compute in Hr. discriminate Hr.
  - eexists. split; [reflexivity |].
    match goal with
    | |- (forall n, in_range ?s n -> _) /\ _ =>
        assert (Hfail : forall n, in_range s n -> candidate_fails (Runs.only 5) s n)
    end.
    { intros n Hn. unfold in_range in Hn. simpl in Hn.
      assert (Hcases : n = 2%Z \/ n = 3%Z) by lia.
      destruct Hcases; subst n; exists AttributeError; vm_compute; reflexivity. }
    split; [exact Hfail |].
    split; [vm_compute; reflexivity |].
    intros H. destruct (H Constant) as [_ Hnone].
    specialize (Hnone Hfail). vm_compute in Hnone. discriminate Hnone.
Qed.

(** C7 at a selector with [verbose] set whose lines are printed: no state
    count of the range 2..3 can be fitted, [n_constant = 5] can, and
    [SelectorConstant.select] returns its model. *)
Lemma select_never_raises_witness :
  exists self,
    Runs.verbose_selector [("A"%string, [Runs.one])] "A" 5 2 3 = Return self /\
    print_succeeds (Runs.only 5) self (n_constant self) /\
    (forall n, in_range self n -> candidate_fails (Runs.only 5) self n) /\
    select (Runs.only 5) Constant self = Return (Some 5%Z).
Proof.
  eexists. split; [reflexivity |].
  match goal with
  | |- print_succeeds _ ?s _ /\ _ =>
      assert (Hp : print_succeeds (Runs.only 5) s (n_constant s))
        by (split; reflexivity);
      assert (Hfail : forall n, in_range s n -> candidate_fails (Runs.only 5) s n)
  end.
  { intros n Hn. unfold in_range in Hn. simpl in Hn.
    assert (Hcases : n = 2%Z \/ n = 3%Z) by lia.
    destruct Hcases; subst n; exists AttributeError; vm_compute; reflexivity. }
  split; [exact Hp |]. split; [exact Hfail |].
  exact (proj2 (proj2 (select_never_raises (Runs.only 5) _ Constant)) Hfail Hp).
Defined.

(** C9, refuted as worded: the only model is registered under the empty
    string and scoring it raises; the guess is the empty string, the name
    of that model. *)
Lemma guess_unnamed_refuted :
  exists X lengths,
    Table.stack [Runs.one] = (X, lengths) /\
    ~ guess_unnamed_as_stated Runs.unscorable [(""%string, Some 2%Z)] X lengths.
Proof.
  eexists. eexists. split; [reflexivity |].
  intros H. destruct H as (_ & _ & Hnot).
  - repeat constructor. intros [].
  - intros w m [E | []]. injection E as _ Em. subst m.
    exists ValueError. reflexivity.
  - apply Hnot. vm_compute. left. reflexivity.
Qed.

(** C10, refuted as worded: one word, scores that are numpy scalars; the
    quotient by zero is an infinity and [SelectorDIC.select] returns the
    model of two states. *)
Lemma dic_single_item_refuted :
  exists self,
    Runs.selector [("A"%string, [Runs.one])] "A" 3 2 3 = Return self /\
    ~ dic_single_item_as_stated Runs.flat_np self.
Proof.
  eexists. split; [reflexivity |].
  intros H. specialize (H eq_refl). vm_compute in H. discriminate H.
Qed.

(** C10 at one word with scores that are Python floats. *)
Lemma SelectorDIC_select_single_item_witness :
  exists self,
    Runs.selector [("A"%string, [Runs.one])] "A" 3 2 3 = Return self /\
    List.length (words self) = 1%nat /\
    dic_candidate Runs.flat_py self 2 = Raise ZeroDivisionError /\
    SelectorDIC_select Runs.flat_py self = Return None.
Proof.
  eexists. split; [reflexivity |]. split; [reflexivity |].
  match goal with
  | |- dic_candidate _ ?s _ = _ /\ _ =>
      destruct (SelectorDIC_select_single_item Runs.flat_py s eq_refl) as [Hpy _]
  end.
  destruct Hpy as (Hzero & _ & Hnone).
  - intros hm X0 l0 s Hs. injection Hs as Hs. subst s. reflexivity.
  - split; [| exact Hnone].
    apply (Hzero 2%Z (Some 2%Z) (pyfloat (-3)) (pyfloat (-3)));
      vm_compute; reflexivity.
Defined.

(** C4 at the example of the specification: the scores [-50], [-30] and
    [-75] of [A], [B] and [C] are recorded in this order and the guess is
    [B]. *)
Lemma recognize_guess_first_maximal_witness :
  NoDup (dict_keys [("A"%string, Some 2%Z); ("B"%string, Some 3%Z);
                    ("C"%string, Some 4%Z)]) /\
  recognize Runs.spec_example
    [("A"%string, Some 2%Z); ("B"%string, Some 3%Z); ("C"%string, Some 4%Z)]
    Runs.one_item =
  Return ([[("A"%string, npfloat (-50)); ("B"%string, npfloat (-30));
            ("C"%string, npfloat (-75))]],
          ["B"%string]).
Proof.
  assert (Hnodup : NoDup (dict_keys [("A"%string, Some 2%Z); ("B"%string, Some 3%Z);
                                     ("C"%string, Some 4%Z)])).
  { repeat constructor; simpl; intros H;
      repeat (destruct H as [H | H]; [discriminate H |]); exact H. }
  split; [exact Hnodup |].
  destruct (@recognize_guess_first_maximal Runs.spec_example
              [("A"%string, Some 2%Z); ("B"%string, Some 3%Z); ("C"%string, Some 4%Z)]
              Runs.one_item [Table.stack [Runs.one]] Hnodup) as [Hrun _].
  - repeat constructor.
  - rewrite Hrun. vm_compute. reflexivity.
Defined.

(** C9 at two models whose scoring raises. *)
Lemma recognize_all_fail_witness :
  prob Runs.unscorable [("A"%string, Some 2%Z); ("B"%string, Some 3%Z)]
    (fst (Table.stack [Runs.one])) (snd (Table.stack [Runs.one])) =
    [("A"%string, pyfloat neg_infinity); ("B"%string, pyfloat neg_infinity)] /\
  guess Runs.unscorable [("A"%string, Some 2%Z); ("B"%string, Some 3%Z)]
    (fst (Table.stack [Runs.one])) (snd (Table.stack [Runs.one])) = ""%string /\
  ~ In (guess Runs.unscorable [("A"%string, Some 2%Z); ("B"%string, Some 3%Z)]
          (fst (Table.stack [Runs.one])) (snd (Table.stack [Runs.one])))
       (dict_keys [("A"%string, Some 2%Z); ("B"%string, Some 3%Z)]).
Proof.
  destruct (@recognize_all_fail Runs.unscorable
              [("A"%string, Some 2%Z); ("B"%string, Some 3%Z)]
              (fst (Table.stack [Runs.one])) (snd (Table.stack [Runs.one])))
    as (Hprob & Hguess & Hname).
  - repeat constructor; simpl; intros H;
      repeat (destruct H as [H | H]; [discriminate H |]); exact H.
  - intros w m [E | [E | []]]; injection E as _ Em; subst m;
      exists ValueError; reflexivity.
  - split; [exact Hprob |]. split; [exact Hguess |].
    apply Hname. simpl. intros H.
    repeat (destruct H as [H | H]; [discriminate H |]). exact H.
Defined.

(** * Further facts *)

(** ** Lookups *)

Section AssocFacts.

Variables (K V : Type) (eqb : K -> K -> bool).
Hypothesis eqb_eq : forall a b, eqb a b = true <-> a = b.

Lemma assoc_get_missing (d : list (K * V)) (k : K) :
  ~ In k (map fst d) -> assoc_get eqb d k = Raise KeyError.
Proof.
  induction d as [| [k' v] d IH]; simpl; intros H; [reflexivity |].
  destruct (eqb k k') eqn:E.
  - exfalso. apply H. left. symmetry. apply eqb_eq, E.
  - apply IH. intros Hin. apply H. right. exact Hin.
Qed.

Lemma assoc_get_present (d : list (K * V)) (k : K) :
  In k (map fst d) -> exists v, assoc_get eqb d k = Return v /\ In (k, v) d.
Proof.
  induction d as [| [k' v] d IH]; simpl; intros H; [contradiction |].
  destruct (eqb k k') eqn:E.
  - apply eqb_eq in E. subst k'. exists v. split; [reflexivity | left; reflexivity].
  - destruct H as [H | H].
    + exfalso. subst k'. assert (T : eqb k k = true) by (apply eqb_eq; reflexivity).
      congruence.
    + destruct (IH H) as (v0 & Hget & Hin). exists v0. split; [exact Hget | right; exact Hin].
Qed.

Lemma assoc_get_raises_KeyError (d : list (K * V)) (k : K) (e : exn) :
  assoc_get eqb d k = Raise e -> e = KeyError /\ ~ In k (map fst d).
Proof.
  induction d as [| [k' v] d IH]; simpl; intros H.
  - injection H as H. split; [symmetry; exact H | intros []].
  - destruct (eqb k k') eqn:E; [discriminate H |].
    destruct (IH H) as [He Hnot]. split; [exact He |].
    intros [Hk | Hin]; [| exact (Hnot Hin)].
    subst k'. assert (T : eqb k k = true) by (apply eqb_eq; reflexivity). congruence.
Qed.

Lemma assoc_keys_functional (d : list (K * V)) (k : K) (v1 v2 : V) :
  NoDup (map fst d) -> In (k, v1) d -> In (k, v2) d -> v1 = v2.
Proof.
  induction d as [| [k' v] d IH]; simpl; intros Hnd H1 H2; [contradiction |].
  inversion Hnd as [| ? ? Hnot Hnd']; subst.
  destruct H1 as [H1 | H1], H2 as [H2 | H2].
  - congruence.
  - injection H1 as Hk Hv. subst. exfalso. apply Hnot.
    apply in_map_iff. exists (k, v2). split; [reflexivity | exact H2].
  - injection H2 as Hk Hv. subst. exfalso. apply Hnot.
    apply in_map_iff. exists (k, v1). split; [reflexivity | exact H1].
  - apply IH; assumption.
Qed.

End AssocFacts.

Lemma dict_get_missing {V : Type} (d : dict V) (k : string) :
  ~ In k (dict_keys d) -> dict_get d k = Raise KeyError.
Proof. apply assoc_get_missing, String.eqb_eq. Qed.

Lemma dict_get_present {V : Type} (d : dict V) (k : string) :
  In k (dict_keys d) -> exists v, dict_get d k = Return v /\ In (k, v) d.
Proof. apply assoc_get_present, String.eqb_eq. Qed.

(** ** Ranges *)

Lemma py_range_empty (a b : Z) : (b <= a)%Z -> py_range a b = [].
Proof.
  intros H. unfold py_range.
  replace (Z.to_nat (b - a)) with 0%nat by lia. reflexivity.
Qed.

Lemma py_range_one (n : Z) : py_range n (n + 1) = [n].
Proof.
  unfold py_range. replace (Z.to_nat (n + 1 - n)) with 1%nat by lia.
  simpl. f_equal. lia.
Qed.

Lemma map_seq_offset (a : Z) (d k s : nat) :
  map (fun i => (a + Z.of_nat i)%Z) (seq (d + s) k) =
  map (fun i => (a + Z.of_nat d + Z.of_nat i)%Z) (seq s k).
Proof.
  revert s. induction k as [| k IH]; intros s; simpl; [reflexivity |].
  f_equal; [lia |]. rewrite <- IH. f_equal. f_equal. lia.
Qed.

Lemma py_range_app (a b c : Z) :
  (a <= b <= c)%Z -> py_range a c = py_range a b ++ py_range b c.
Proof.
  intros H. unfold py_range.
  replace (Z.to_nat (c - a)) with (Z.to_nat (b - a) + Z.to_nat (c - b))%nat by lia.
  rewrite seq_app, map_app. f_equal.
  rewrite Nat.add_0_l, <- (Nat.add_0_r (Z.to_nat (b - a))), map_seq_offset.
  apply map_ext. intros i. lia.
Qed.

Lemma py_range_NoDup (a b : Z) : NoDup (py_range a b).
Proof.
  unfold py_range. generalize (seq_NoDup (Z.to_nat (b - a)) 0).
  generalize (seq 0 (Z.to_nat (b - a))). intros l Hl.
  induction Hl as [| i l Hnot Hl IH]; simpl; constructor; [| exact IH].
  intros Hin. apply in_map_iff in Hin. destruct Hin as (j & Hj & Hin).
  assert (j = i) by lia. subst j. exact (Hnot Hin).
Qed.

Lemma split_at_unique {A : Type} (x : A) (l1 l2 l1' l2' : list A) :
  ~ In x l1 -> ~ In x l1' ->
  l1 ++ x :: l2 = l1' ++ x :: l2' -> l1 = l1' /\ l2 = l2'.
Proof.
  revert l1'. induction l1 as [| y l1 IH]; intros [| y' l1'] H1 H1' H; simpl in *.
  - injection H as H. auto.
  - injection H as Hx _. exfalso. apply H1'. left. symmetry. exact Hx.
  - injection H as Hx _. exfalso. apply H1. left. exact Hx.
  - injection H as Hy H. subst y'.
    destruct (IH l1') as [E1 E2]; [tauto | tauto | exact H |].
    subst. auto.
Qed.

(** A range cut at one of its elements: what comes before is the range
    up to it, what comes after the range from the next integer. *)
Lemma py_range_cut (a b n : Z) (cs1 cs2 : list Z) :
  py_range a b = cs1 ++ n :: cs2 ->
  cs1 = py_range a n /\ cs2 = py_range (n + 1) b.
Proof.
  intros H.
  assert (Hn : (a <= n < b)%Z).
  { apply In_py_range. rewrite H. apply in_elt. }
  pose proof (py_range_NoDup a b) as Hnd. rewrite H in Hnd.
  apply NoDup_remove_2 in Hnd.
  assert (E : py_range a b = py_range a n ++ n :: py_range (n + 1) b).
  { rewrite (@py_range_app a n b) by lia. f_equal.
    rewrite (@py_range_app n (n + 1) b) by lia. rewrite py_range_one. reflexivity. }
  rewrite H in E.
  apply split_at_unique in E.
  - exact E.
  - intros Hin. apply Hnd. apply in_or_app. left. exact Hin.
  - intros Hin. apply In_py_range in Hin. lia.
Qed.

(** ** The first best candidate of a range *)

Section RangeSearch.

Variable P : Type.
Variable better : scalar -> scalar -> bool.
Variable outcome : Z -> option (P * scalar).

Hypothesis better_irrefl : forall x, better x x = false.
Hypothesis better_trans :
  forall x y z, better x y = true -> better y z = true -> better x z = true.
Hypothesis better_weak :
  forall x y z, better x y = true -> better z y = false ->
    Num.is_nan z = false -> better x z = true.

Lemma range_search (a b : Z) (init : P * scalar) :
  let final := fold_left (keep_best better outcome) (py_range a b) init in
  (final = init /\
   forall n p s, (a <= n < b)%Z -> outcome n = Some (p, s) ->
     better s (snd init) = false)
  \/
  (exists n,
     (a <= n < b)%Z /\
     outcome n = Some final /\
     better (snd final) (snd init) = true /\
     (forall n' p' s', (a <= n' < b)%Z -> outcome n' = Some (p', s') ->
        better s' (snd final) = false) /\
     (forall n' p' s', (a <= n' < n)%Z -> outcome n' = Some (p', s') ->
        Num.is_nan s' = false -> better (snd final) s' = true)).
Proof.
  intros final. subst final.
  destruct (@keep_best_fold _ _ better outcome better_irrefl better_trans
              better_weak (py_range a b) init) as [[Hfin Hnone] | Hfb].
  - left. split; [exact Hfin |].
    intros n p s Hn. apply Hnone. apply In_py_range. exact Hn.
  - right.
    pose proof (@first_best_none_better _ _ better outcome better_irrefl
                  _ _ _ _ Hfb) as Hmax.
    destruct Hfb as (cs1 & n & cs2 & Hcs & Hc & Hinit & Hbefore & _).
    destruct (@py_range_cut a b n cs1 cs2 Hcs) as [E1 _].
    exists n.
    split; [apply In_py_range; rewrite Hcs; apply in_elt |].
    split; [rewrite Hc; rewrite <- surjective_pairing; reflexivity |].
    split; [exact Hinit |]. split.
    + intros n' p' s' Hn'. apply Hmax. apply In_py_range. exact Hn'.
    + intros n' p' s' Hn' Hc' Hnan.
      destruct (Hbefore n' p' s') as [_ Hlt]; [| exact Hc' | exact (Hlt Hnan)].
      rewrite E1. apply In_py_range. exact Hn'.
Qed.

End RangeSearch.

(** ** More on the selectors *)

Section MoreSelectorFacts.

Variable L : Library.

(** X1: [ModelSelector.__init__] raises [KeyError] when [this_word] is not
    a key of one of the two dictionaries; otherwise the selector keeps the
    two dictionaries and holds the entries of [this_word] as its
    sequences, [X] and [lengths]. *)
Theorem ModelSelector_init_key_error
    (all_word_sequences : dict (list sequence)) (all_word_Xlengths : dict Xlengths)
    (w : string) (nc lo hi rs : Z) (vb : bool) :
  (~ In w (dict_keys all_word_sequences) \/ ~ In w (dict_keys all_word_Xlengths) ->
   ModelSelector_init all_word_sequences all_word_Xlengths w nc lo hi rs vb
     = Raise KeyError) /\
  (In w (dict_keys all_word_sequences) -> In w (dict_keys all_word_Xlengths) ->
   exists self,
     ModelSelector_init all_word_sequences all_word_Xlengths w nc lo hi rs vb
       = Return self /\
     words self = all_word_sequences /\ hwords self = all_word_Xlengths /\
     this_word self = w /\
     In (w, sequences self) all_word_sequences /\
     In (w, (X self, lengths self)) all_word_Xlengths /\
     dict_get (words self) (this_word self) = Return (sequences self) /\
     dict_get (hwords self) (this_word self) = Return (X self, lengths self)).
Proof.
  unfold ModelSelector_init. split.
  - intros [H | H].
    + rewrite (dict_get_missing _ _ H). reflexivity.
    + destruct (dict_get all_word_sequences w) as [seqs | e] eqn:E.
      * simpl. rewrite (dict_get_missing _ _ H). reflexivity.
      * apply assoc_get_raises_KeyError in E; [| apply String.eqb_eq].
        destruct E as [E _]. subst e. reflexivity.
  - intros H1 H2.
    destruct (dict_get_present _ _ H1) as (seqs & E1 & I1).
    destruct (dict_get_present _ _ H2) as ([X0 l0] & E2 & I2).
    rewrite E1. simpl. rewrite E2. simpl.
    eexists. split; [reflexivity |]. simpl. auto 10.
Qed.

Variable self : ModelSelector.

(** X2: with [max_n_components] below [min_n_components] the range is
    empty, no model is fitted and [SelectorBIC.select] and
    [SelectorDIC.select] return [None]. *)
Theorem select_empty_range :
  (max_n_components self < min_n_components self)%Z ->
  SelectorBIC_select L self = Return None /\
  SelectorDIC_select L self = Return None.
Proof.
  intros H. unfold SelectorBIC_select, SelectorDIC_select.
  rewrite py_range_empty by lia. split; reflexivity.
Qed.

(** X3: a state count of the range that fails to fit or to score is
    skipped: [SelectorBIC.select] and [SelectorDIC.select] return what the
    search over the rest of the range, before and after it, returns. *)
Theorem select_skips_failing_candidate (n : Z) :
  in_range self n -> candidate_fails L self n ->
  SelectorBIC_select L self =
    Return (fst (bic_search L self
                   (py_range (min_n_components self) n ++
                    py_range (n + 1) (max_n_components self + 1)))) /\
  SelectorDIC_select L self =
    Return (fst (dic_search L self
                   (py_range (min_n_components self) n ++
                    py_range (n + 1) (max_n_components self + 1)))).
Proof.
  intros Hn Hfail. unfold in_range in Hn.
  unfold SelectorBIC_select, SelectorDIC_select.
  rewrite (@py_range_app (min_n_components self) n (max_n_components self + 1)) by lia.
  rewrite (@py_range_app n (n + 1) (max_n_components self + 1)) by lia.
  rewrite py_range_one. simpl.
  rewrite (@bic_search_skip L self _ n _ Hfail).
  rewrite (@dic_search_skip L self _ n _ Hfail).
  split; reflexivity.
Qed.

(** X4: [SelectorBIC.select] breaks ties towards the smallest state
    count: every smaller state count of the range that completes with a
    score that is a number has a strictly greater BIC than the one
    returned. *)
Theorem SelectorBIC_select_first :
  SelectorBIC_select L self = Return None \/
  exists n m b,
    in_range self n /\
    bic_candidate L self n = Return (m, b) /\
    SelectorBIC_select L self = Return m /\
    forall n' m' b',
      (min_n_components self <= n' < n)%Z ->
      bic_candidate L self n' = Return (m', b') ->
      Num.is_nan b' = false -> Num.lt b b' = true.
Proof.
  unfold SelectorBIC_select. rewrite bic_search_keep_best.
  destruct (@range_search _ Num.lt (bic_outcome L self) Num_lt_irrefl Num_lt_trans
              Num_lt_weak (min_n_components self) (max_n_components self + 1)
              (None, pyfloat infinity))
    as [[Hfin _] | (n & Hn & Hc & _ & _ & Hfirst)].
  - left. rewrite Hfin. reflexivity.
  - right.
    remember (fold_left (keep_best Num.lt (bic_outcome L self))
                (py_range (min_n_components self) (max_n_components self + 1))
                (None, pyfloat infinity)) as final eqn:Ef.
    unfold bic_outcome in Hc.
    destruct (bic_candidate L self n) as [r | e] eqn:Hcand; [| discriminate Hc].
    injection Hc as Hc. subst r.
    exists n, (fst final), (snd final).
    split; [unfold in_range; lia |].
    split; [rewrite Hcand; f_equal; apply surjective_pairing |].
    split; [reflexivity |].
    intros n' m' b' Hn' Hc' Hnan.
    apply (Hfirst n' m' b'); [lia | | exact Hnan].
    unfold bic_outcome. rewrite Hc'. reflexivity.
Qed.

(** X5: [SelectorDIC.select] returns [None] or the model of the first
    state count whose score, as the code computes it, is maximal: no
    candidate that completes has a greater score, and every smaller state
    count that completes with a score that is a number has a strictly
    smaller one. *)
Theorem SelectorDIC_select_first_maximal :
  SelectorDIC_select L self = Return None \/
  exists n m d,
    in_range self n /\
    dic_candidate L self n = Return (m, d) /\
    SelectorDIC_select L self = Return m /\
    Num.gt d (pyfloat neg_infinity) = true /\
    (forall n' m' d',
       in_range self n' -> dic_candidate L self n' = Return (m', d') ->
       Num.gt d' d = false) /\
    (forall n' m' d',
       (min_n_components self <= n' < n)%Z ->
       dic_candidate L self n' = Return (m', d') ->
       Num.is_nan d' = false -> Num.lt d' d = true).
Proof.
  unfold SelectorDIC_select. rewrite dic_search_keep_best.
  destruct (@range_search _ Num.gt (dic_outcome L self) Num_gt_irrefl Num_gt_trans
              Num_gt_weak (min_n_components self) (max_n_components self + 1)
              (None, pyfloat neg_infinity))
    as [[Hfin _] | (n & Hn & Hc & Hinit & Hmax & Hfirst)].
  - left. rewrite Hfin. reflexivity.
  - right.
    remember (fold_left (keep_best Num.gt (dic_outcome L self))
                (py_range (min_n_components self) (max_n_components self + 1))
                (None, pyfloat neg_infinity)) as final eqn:Ef.
    unfold dic_outcome in Hc.
    destruct (dic_candidate L self n) as [r | e] eqn:Hcand; [| discriminate Hc].
    injection Hc as Hc. subst r.
    exists n, (fst final), (snd final).
    split; [unfold in_range; lia |].
    split; [rewrite Hcand; f_equal; apply surjective_pairing |].
    split; [reflexivity |].
    split; [exact Hinit |]. split.
    + intros n' m' d' Hn' Hc'. apply (Hmax n' m' d'); [unfold in_range in Hn'; lia |].
      unfold dic_outcome. rewrite Hc'. reflexivity.
    + intros n' m' d' Hn' Hc' Hnan.
      apply (Hfirst n' m' d'); [lia | | exact Hnan].
      unfold dic_outcome. rewrite Hc'. reflexivity.
Qed.

(** X6: when the range holds the single state count [n_constant] and its
    block completes with a BIC below plus infinity, [SelectorBIC.select]
    returns what [SelectorConstant.select] returns. *)
Theorem SelectorBIC_single_candidate (m : option (model L)) (b : scalar) :
  min_n_components self = n_constant self ->
  max_n_components self = n_constant self ->
  bic_candidate L self (n_constant self) = Return (m, b) ->
  Num.lt b (pyfloat infinity) = true ->
  SelectorBIC_select L self = SelectorConstant_select L self.
Proof.
  intros Hlo Hhi Hc Hb. unfold SelectorBIC_select, SelectorConstant_select.
  rewrite Hlo, Hhi, py_range_one. unfold bic_search. simpl.
  unfold bic_step. rewrite Hc. simpl.
  change (Num.lt b (pyfloat infinity) = true) in Hb. rewrite Hb. simpl.
  unfold bic_candidate in Hc.
  apply bind_Return_inv in Hc. destruct Hc as (model & Hbm & Hc).
  apply bind_Return_inv in Hc. destruct Hc as (logL & _ & Hc).
  apply bind_Return_inv in Hc. destruct Hc as (bic & _ & Hc).
  injection Hc as Hm _. rewrite Hbm, Hm. reflexivity.
Qed.

Lemma sum_scores_missing (m : option (model L)) (hw : dict Xlengths) (w : string) :
  ~ In w (dict_keys hw) ->
  forall ws acc, In w ws -> raises (sum_scores L m hw ws acc).
Proof.
  intros Hmiss ws. induction ws as [| word ws IH]; intros acc Hin; [contradiction |].
  simpl. destruct (dict_get hw word) as [xl | e] eqn:E; [| exists e; reflexivity].
  simpl. destruct (score_of L m (fst xl) (snd xl)) as [s | e] eqn:Es;
    [| exists e; reflexivity].
  simpl. destruct Hin as [Hw | Hin]; [| apply IH, Hin].
  subst word. rewrite (dict_get_missing _ _ Hmiss) in E. discriminate E.
Qed.

(** X8: when a word of [self.words] has no entry in [self.hwords], the
    sum over the words raises [KeyError] for every state count and
    [SelectorDIC.select] returns [None]. *)
Theorem SelectorDIC_select_missing_word (w : string) :
  In w (dict_keys (words self)) -> ~ In w (dict_keys (hwords self)) ->
  SelectorDIC_select L self = Return None.
Proof.
  intros Hin Hmiss. apply SelectorDIC_select_no_outcome. intros n.
  unfold dic_outcome, dic_candidate.
  destruct (base_model L self n) as [model | e]; [| reflexivity].
  simpl.
  destruct (score_of L model (X self) (lengths self)) as [logL | e];
    [| reflexivity].
  simpl.
  destruct (@sum_scores_missing model (hwords self) w Hmiss
              (dict_keys (words self)) (pyfloat 0) Hin) as [e He].
  rewrite He. reflexivity.
Qed.

(** X11: the number of free parameters is not negative and grows strictly
    with the number of states, for one state or more and a feature
    dimension that is not negative. *)
Theorem bic_params_increasing (n n' : Z) :
  (0 <= snd (shape (X self)))%Z -> (1 <= n < n')%Z ->
  (0 <= bic_params self n < bic_params self n')%Z.
Proof. unfold bic_params. intros HD Hn. nia. Qed.

End MoreSelectorFacts.

(** [base_model] reads [X], [lengths], [random_state] and [verbose], and
    [this_word] when [verbose] is set. *)
Lemma base_model_frame (L : Library) (self1 self2 : ModelSelector) (n : Z) :
  X self1 = X self2 -> lengths self1 = lengths self2 ->
  random_state self1 = random_state self2 ->
  verbose self1 = verbose self2 ->
  (verbose self1 = true -> this_word self1 = this_word self2) ->
  base_model L self1 n = base_model L self2 n.
Proof.
  intros HX Hl Hrs Hv Hw.
  unfold base_model, print_if_verbose, created_message, failure_message.
  rewrite HX, Hl, Hrs, <- Hv.
  destruct (verbose self1); [rewrite (Hw eq_refl) |]; reflexivity.
Qed.

(** X7: [SelectorBIC.select] reads [X], [lengths], the range,
    [random_state] and [verbose], and [this_word] when [verbose] is set:
    two selectors that agree on them, whatever their words, other data and
    [n_constant], get the same result. *)
Theorem SelectorBIC_select_frame (L : Library) (self1 self2 : ModelSelector) :
  X self1 = X self2 -> lengths self1 = lengths self2 ->
  min_n_components self1 = min_n_components self2 ->
  max_n_components self1 = max_n_components self2 ->
  random_state self1 = random_state self2 ->
  verbose self1 = verbose self2 ->
  (verbose self1 = true -> this_word self1 = this_word self2) ->
  SelectorBIC_select L self1 = SelectorBIC_select L self2.
Proof.
  intros HX Hl Hlo Hhi Hrs Hv Hw. unfold SelectorBIC_select, bic_search.
  rewrite Hlo, Hhi. f_equal. f_equal. apply fold_left_ext. intros acc n.
  unfold bic_step, bic_candidate, bic_score, bic_params.
  rewrite (base_model_frame L self1 self2 n HX Hl Hrs Hv Hw).
  rewrite HX, Hl. reflexivity.
Qed.

(** ** [base_model] and its lines *)

Section BaseModelFacts.

Variable L : Library.
Variable self : ModelSelector.

Lemma print_if_verbose_raises text :
  raises (print_if_verbose L self text) -> verbose self = true.
Proof.
  unfold print_if_verbose. destruct (verbose self); [reflexivity |].
  intros [e He]. discriminate He.
Qed.

(** X18: [base_model] returns the fitted model when the fit and the line
    about it both succeed; when one of them raises, the line of the
    [except] clause decides: [None] is returned when it is printed (or
    [verbose] is off), and the exception it raises leaves [base_model].
    So [base_model] raises with [verbose] set only, and with [verbose] off
    it gives the model, or [None] when the fit raises. *)
Theorem base_model_outcome (n : Z) :
  (forall hm,
     base_model L self n = Return (Some hm) <->
     hmm_fit L n (random_state self) (X self) (lengths self) = Return hm /\
     print_if_verbose L self (created_message self n) = Return tt) /\
  (base_model L self n = Return None <->
   (raises (hmm_fit L n (random_state self) (X self) (lengths self)) \/
    raises (print_if_verbose L self (created_message self n))) /\
   print_if_verbose L self (failure_message self n) = Return tt) /\
  (forall e,
     base_model L self n = Raise e <->
     (raises (hmm_fit L n (random_state self) (X self) (lengths self)) \/
      raises (print_if_verbose L self (created_message self n))) /\
     print_if_verbose L self (failure_message self n) = Raise e) /\
  (forall e, base_model L self n = Raise e -> verbose self = true) /\
  (verbose self = false ->
   base_model L self n =
   Return (outcome_of (hmm_fit L n (random_state self) (X self) (lengths self)))).
Proof.
  assert (Hcases :
    (exists hm,
       hmm_fit L n (random_state self) (X self) (lengths self) = Return hm /\
       print_if_verbose L self (created_message self n) = Return tt /\
       base_model L self n = Return (Some hm)) \/
    ((raises (hmm_fit L n (random_state self) (X self) (lengths self)) \/
      raises (print_if_verbose L self (created_message self n))) /\
     base_model L self n =
     (_ <- print_if_verbose L self (failure_message self n) ;; Return None))).
  { unfold base_model.
    destruct (hmm_fit L n (random_state self) (X self) (lengths self))
      as [hm | e]; simpl.
    - destruct (print_if_verbose L self (created_message self n)) as [[] | e];
        simpl.
      + left. exists hm. auto.
      + right. split; [right; exists e; reflexivity | reflexivity].
    - right. split; [left; exists e; reflexivity | reflexivity]. }
  assert (Hraise : forall e, base_model L self n = Raise e ->
            (raises (hmm_fit L n (random_state self) (X self) (lengths self)) \/
             raises (print_if_verbose L self (created_message self n))) /\
            print_if_verbose L self (failure_message self n) = Raise e).
  { intros e H. destruct Hcases as [(hm & _ & _ & Hb) | [Hfail Hb]];
      [congruence |].
    split; [exact Hfail |]. rewrite Hb in H.
    destruct (print_if_verbose L self (failure_message self n)) as [[] | e'];
      simpl in H; [discriminate H | injection H as H; rewrite H; reflexivity]. }
  split; [| split; [| split; [| split]]].
  - intros hm. split.
    + intros H. destruct Hcases as [(hm' & Hfit & Hp & Hb) | [_ Hb]].
      * split; [congruence | exact Hp].
      * rewrite Hb in H.
        destruct (print_if_verbose L self (failure_message self n)) as [[] | e];
          discriminate H.
    + intros [Hfit Hp]. unfold base_model. rewrite Hfit. simpl. rewrite Hp.
      reflexivity.
  - split.
    + intros H. destruct Hcases as [(hm & _ & _ & Hb) | [Hfail Hb]];
        [congruence |].
      split; [exact Hfail |]. rewrite Hb in H.
      destruct (print_if_verbose L self (failure_message self n)) as [[] | e];
        [reflexivity | discriminate H].
    + intros [Hfail Hp].
      destruct Hcases as [(hm & Hfit & Hc & _) | [_ Hb]].
      * destruct Hfail as [[e He] | [e He]]; congruence.
      * rewrite Hb, Hp. reflexivity.
  - intros e. split; [apply Hraise |].
    intros [Hfail Hp].
    destruct Hcases as [(hm & Hfit & Hc & _) | [_ Hb]].
    + destruct Hfail as [[e' He] | [e' He]]; congruence.
    + rewrite Hb, Hp. reflexivity.
  - intros e H. apply Hraise in H. destruct H as [_ H].
    apply print_if_verbose_raises with (text := failure_message self n).
    exists e. exact H.
  - intros Hq. unfold base_model, print_if_verbose. rewrite Hq.
    destruct (hmm_fit L n (random_state self) (X self) (lengths self));
      reflexivity.
Qed.

End BaseModelFacts.



(** ** The two files compared *)

Section TwoFiles.

Variable L : Library.
Variable self : ModelSelector.

Lemma total_other_sum_scores (m : option (model L)) (hw : dict Xlengths) :
  forall ws acc,
    OrgWorkingDIC.total_other L m hw ws acc = sum_scores L m hw ws acc.
Proof.
  intros ws. induction ws as [| word ws IH]; intros acc; simpl; [reflexivity |].
  destruct (dict_get hw word) as [[x l] | e]; simpl; [| reflexivity].
  destruct (score_of L m x l) as [s | e]; simpl; [apply IH | reflexivity].
Qed.

Lemma dic_score_dic_candidate (n : Z) :
  OrgWorkingDIC.dic_score L self n = dic_candidate L self n.
Proof.
  unfold OrgWorkingDIC.dic_score, dic_candidate.
  destruct (base_model L self n) as [model | e]; simpl; [| reflexivity].
  destruct (score_of L model (X self) (lengths self)) as [logL | e]; simpl;
    [| reflexivity].
  rewrite total_other_sum_scores. reflexivity.
Qed.

Lemma org_working_dic_fold (cands : list Z) :
  forall min_val best_model,
    fold_left (OrgWorkingDIC.dic_step L self) cands (min_val, best_model) =
    (snd (fold_left (dic_step L self) cands (best_model, min_val)),
     fst (fold_left (dic_step L self) cands (best_model, min_val))).
Proof.
  induction cands as [| n cands IH]; intros min_val best_model; [reflexivity |].
  cbn [fold_left].
  assert (E : OrgWorkingDIC.dic_step L self (min_val, best_model) n =
              (snd (dic_step L self (best_model, min_val) n),
               fst (dic_step L self (best_model, min_val) n))).
  { unfold OrgWorkingDIC.dic_step, dic_step. rewrite dic_score_dic_candidate.
    destruct (dic_candidate L self n) as [[m d] | e]; simpl; [| reflexivity].
    destruct (Num.gt d min_val); reflexivity. }
  rewrite E, IH. rewrite <- surjective_pairing. reflexivity.
Qed.

(** X9: [SelectorDIC.select] of the second file, with its explicit sum
    loop and its two variables for the best score and the best model,
    returns what [SelectorDIC.select] of the first file returns. *)
Theorem org_working_SelectorDIC_select_same :
  OrgWorkingDIC.SelectorDIC_select L self = SelectorDIC_select L self.
Proof.
  unfold OrgWorkingDIC.SelectorDIC_select, SelectorDIC_select, dic_search.
  rewrite org_working_dic_fold. reflexivity.
Qed.

Lemma org_working_bic_loop_prefix (cands : list Z) :
  forall init,
    OrgWorking.bic_loop L self cands init =
    fold_left (bic_step L self) (completing_prefix L self cands) init.
Proof.
  induction cands as [| n cands IH]; intros init; simpl; [reflexivity |].
  destruct (bic_candidate L self n) as [[m b] | e] eqn:E; [| reflexivity].
  cbn [fold_left]. rewrite IH. f_equal.
  unfold bic_step. rewrite E. reflexivity.
Qed.

Lemma completing_prefix_all (cands : list Z) :
  (forall n, In n cands -> exists r, bic_candidate L self n = Return r) ->
  completing_prefix L self cands = cands.
Proof.
  induction cands as [| n cands IH]; intros H; simpl; [reflexivity |].
  destruct (H n (or_introl eq_refl)) as [r Hr]. rewrite Hr.
  f_equal. apply IH. intros n' Hn'. apply H. right. exact Hn'.
Qed.

(** X10: [SelectorBIC.select] of the second file, whose [try] holds the
    whole loop, returns what the search of the first file returns on the
    state counts met before the first one that fails; the two agree when
    no state count of the range fails. *)
Theorem org_working_SelectorBIC_select_prefix :
  OrgWorking.SelectorBIC_select L self =
    Return (fst (bic_search L self
                   (completing_prefix L self
                      (py_range (min_n_components self)
                         (max_n_components self + 1))))) /\
  ((forall n, in_range self n -> exists r, bic_candidate L self n = Return r) ->
   OrgWorking.SelectorBIC_select L self = SelectorBIC_select L self).
Proof.
  unfold OrgWorking.SelectorBIC_select, SelectorBIC_select, bic_search.
  rewrite org_working_bic_loop_prefix. split; [reflexivity |].
  intros H. rewrite completing_prefix_all; [reflexivity |].
  intros n Hn. apply H. apply In_py_range in Hn. unfold in_range. lia.
Qed.

Lemma sum_scores_terms (m : option (model L)) (hw : dict Xlengths) :
  forall ws acc total,
    sum_scores L m hw ws acc = Return total ->
    exists scores,
      Forall2 (fun word s =>
                 exists xl, dict_get hw word = Return xl /\
                            score_of L m (fst xl) (snd xl) = Return s)
        ws scores /\
      total = fold_left Num.add scores acc.
Proof.
  intros ws. induction ws as [| word ws IH]; intros acc total H; simpl in H.
  - injection H as H. exists []. split; [constructor | symmetry; exact H].
  - apply bind_Return_inv in H. destruct H as (xl & Hxl & H).
    apply bind_Return_inv in H. destruct H as (s & Hs & H).
    destruct (IH _ _ H) as (scores & Hall & Htotal).
    exists (s :: scores). split; [| exact Htotal].
    constructor; [| exact Hall]. exists xl. split; assumption.
Qed.

(** X12: the score a state count gets in [SelectorDIC.select] is
    [logL - total / (len(self.words) - 1)], where [total] adds, from zero
    and in the order of [self.words], one score per word of [self.words]
    (the word of the selector among them when it is a key), each on the
    entry of the word in [self.hwords]. *)
Theorem dic_candidate_formula (n : Z) (m : option (model L)) (d : scalar) :
  dic_candidate L self n = Return (m, d) ->
  exists logL scores mean,
    base_model L self n = Return m /\
    score_of L m (X self) (lengths self) = Return logL /\
    Forall2 (fun word s =>
               exists xl, dict_get (hwords self) word = Return xl /\
                          score_of L m (fst xl) (snd xl) = Return s)
      (dict_keys (words self)) scores /\
    List.length scores = List.length (words self) /\
    Num.truediv_int (fold_left Num.add scores (pyfloat 0))
      (Z.of_nat (List.length (words self)) - 1) = Return mean /\
    d = Num.sub logL mean.
Proof.
  unfold dic_candidate. intros H.
  apply bind_Return_inv in H. destruct H as (model & Hbm & H).
  apply bind_Return_inv in H. destruct H as (logL & Hs & H).
  apply bind_Return_inv in H. destruct H as (total & Hsum & H).
  apply bind_Return_inv in H. destruct H as (mean & Hmean & H).
  injection H as Hm Hd.
  destruct (sum_scores_terms _ _ _ _ Hsum) as (scores & Hall & Htotal).
  exists logL, scores, mean. subst m total.
  split; [exact Hbm |]. split; [exact Hs |]. split; [exact Hall |].
  split.
  - apply Forall2_length in Hall. unfold dict_keys in Hall.
    rewrite length_map in Hall. symmetry. exact Hall.
  - split; [exact Hmean | symmetry; exact Hd].
Qed.

End TwoFiles.

(** ** More on the recognizer *)

Section MoreRecognizerFacts.

Variable L : Library.
Variable models : dict (option (model L)).

Lemma recognize_loop_missing (allXlength : list (Z * Xlengths)) (key : Z) :
  ~ In key (map fst allXlength) ->
  forall keys probabilities guesses,
    In key keys ->
    recognize_loop L models allXlength keys probabilities guesses = Raise KeyError.
Proof.
  intros Hmiss keys. induction keys as [| k keys IH]; intros ps gs Hin; [contradiction |].
  simpl. destruct (assoc_get Z.eqb allXlength k) as [[X0 l0] | e] eqn:E.
  - simpl. destruct (recognize_sequence L models X0 l0) as [p g].
    destruct Hin as [Hk | Hin]; [| apply IH, Hin].
    subst k. rewrite (assoc_get_missing Z.eqb Z.eqb_eq _ _ Hmiss) in E. discriminate E.
  - apply (assoc_get_raises_KeyError Z.eqb Z.eqb_eq) in E. destruct E as [E _].
    subst e. reflexivity.
Qed.

(** X13: [recognize] raises [KeyError] when a test item has no entry in
    [get_all_Xlengths()]. *)
Theorem recognize_missing_Xlengths (test_set : SinglesData) (key : Z) :
  In key (map fst (get_all_sequences test_set)) ->
  ~ In key (map fst (get_all_Xlengths test_set)) ->
  recognize L models test_set = Raise KeyError.
Proof.
  intros Hin Hmiss. unfold recognize.
  eapply recognize_loop_missing; eassumption.
Qed.

Variables (X : ndarray) (lengths : list Z).

Lemma guess_cases :
  guess L models X lengths = ""%string \/
  exists m,
    In (guess L models X lengths, m) models /\
    Num.gt (recorded_score L X lengths m) (pyfloat neg_infinity) = true.
Proof.
  rewrite guess_fold.
  destruct (@keep_best_fold _ _ Num.gt (recognize_outcome L X lengths)
              Num_gt_irrefl Num_gt_trans Num_gt_weak models
              (""%string, pyfloat neg_infinity)) as [[Hfin _] | Hfb].
  - left. rewrite Hfin. reflexivity.
  - right. destruct Hfb as (pre & [w m] & post & Hms & Hc & Hinit & _).
    remember (fold_left (keep_best Num.gt (recognize_outcome L X lengths)) models
                (""%string, pyfloat neg_infinity)) as final eqn:Ef.
    unfold recognize_outcome in Hc. cbn [fst snd] in Hc. injection Hc as Hw Hs.
    exists m. rewrite <- Hw. split; [rewrite Hms; apply in_elt |].
    cbn [snd] in Hinit. rewrite Hs. exact Hinit.
Qed.

(** X14: the guess is the empty string or a key of the mapping, and a key
    only of a model whose recorded score is greater than minus infinity:
    [recognize] never guesses a word outside the mapping. *)
Theorem recognize_guess_is_key :
  guess L models X lengths = ""%string \/
  (In (guess L models X lengths) (dict_keys models) /\
   exists m,
     In (guess L models X lengths, m) models /\
     Num.gt (recorded_score L X lengths m) (pyfloat neg_infinity) = true).
Proof.
  destruct guess_cases as [H | (m & Hin & Hgt)]; [left; exact H | right].
  split; [| exists m; split; assumption].
  unfold dict_keys. apply in_map_iff.
  exists (guess L models X lengths, m). split; [reflexivity | exact Hin].
Qed.

Lemma dict_get_map_entry {A B : Type} (f : A -> B) (d : dict A) (w : string) (a : A) :
  NoDup (dict_keys d) -> In (w, a) d ->
  dict_get (map (fun item => (fst item, f (snd item))) d) w = Return (f a).
Proof.
  unfold dict_get, dict_keys.
  induction d as [| [k v] d IH]; simpl; intros Hnd Hin; [contradiction |].
  inversion Hnd as [| ? ? Hnot Hnd']; subst.
  destruct (String.eqb_spec w k) as [E | E].
  - subst k. destruct Hin as [Hin | Hin]; [congruence |].
    exfalso. apply Hnot. apply in_map_iff. exists (w, a). auto.
  - destruct Hin as [Hin | Hin]; [congruence |]. apply IH; assumption.
Qed.

(** X15: looking a word of the mapping up in the dictionary of scores of
    a test item gives the score recorded for its model. *)
Theorem recognize_prob_lookup (w : string) (m : option (model L)) :
  NoDup (dict_keys models) -> In (w, m) models ->
  dict_get (prob L models X lengths) w = Return (recorded_score L X lengths m).
Proof.
  intros Hnd Hin. rewrite (@prob_entries L X lengths models Hnd).
  apply dict_get_map_entry; assumption.
Qed.

(** X17: a word other than the empty string whose recorded score is not
    greater than minus infinity (scoring its model raises, its model is
    [None], its score is minus infinity or a NaN) is never the guess. *)
Theorem recognize_never_guesses_failed (w : string) (m : option (model L)) :
  NoDup (dict_keys models) -> In (w, m) models ->
  Num.gt (recorded_score L X lengths m) (pyfloat neg_infinity) = false ->
  w <> ""%string ->
  guess L models X lengths <> w.
Proof.
  intros Hnd Hin Hlow Hname Hguess.
  destruct guess_cases as [Hempty | (m0 & Hin0 & Hgt)].
  - apply Hname. rewrite <- Hguess. exact Hempty.
  - rewrite Hguess in Hin0.
    assert (E : m0 = m) by (eapply assoc_keys_functional; eassumption).
    subst m0. congruence.
Qed.

End MoreRecognizerFacts.

Lemma recognize_loop_no_models (L : Library) (allXlength : list (Z * Xlengths)) :
  forall keys probabilities guesses,
    (forall key, In key keys -> In key (map fst allXlength)) ->
    recognize_loop L [] allXlength keys probabilities guesses =
    Return (probabilities ++ map (fun _ => []) keys,
            guesses ++ map (fun _ => ""%string) keys).
Proof.
  intros keys. induction keys as [| k keys IH]; intros ps gs H; simpl.
  - rewrite !app_nil_r. reflexivity.
  - destruct (assoc_get_present Z.eqb Z.eqb_eq allXlength k (H k (or_introl eq_refl)))
      as ([X0 l0] & E & _).
    rewrite E. simpl. rewrite IH.
    + rewrite <- !app_assoc. reflexivity.
    + intros key Hkey. apply H. right. exact Hkey.
Qed.

(** X16: with no model in the mapping every test item gets an empty
    dictionary of scores and the empty string as its guess. *)
Theorem recognize_no_models (L : Library) (test_set : SinglesData) :
  (forall key, In key (map fst (get_all_sequences test_set)) ->
               In key (map fst (get_all_Xlengths test_set))) ->
  recognize L [] test_set =
  Return (map (fun _ => []) (get_all_sequences test_set),
          map (fun _ => ""%string) (get_all_sequences test_set)).
Proof.
  intros H. unfold recognize. rewrite recognize_loop_no_models by exact H.
  rewrite !map_map. reflexivity.
Qed.

(** ** Runs of the further facts *)

(** X2 at the range 5..2. *)
Lemma select_empty_range_witness :
  exists self,
    Runs.selector [("A"%string, [Runs.one])] "A" 3 5 2 = Return self /\
    (max_n_components self < min_n_components self)%Z /\
    SelectorBIC_select Runs.flat_np self = Return None /\
    SelectorDIC_select Runs.flat_np self = Return None.
Proof.
  eexists. split; [reflexivity |]. split; [simpl; lia |].
  apply select_empty_range. simpl. lia.
Defined.

(** X3 at the range 2..3 where two states cannot be fitted. *)
Lemma select_skips_failing_candidate_witness :
  exists self,
    Runs.selector [("A"%string, [Runs.one; Runs.one; Runs.one]);
                   ("B"%string, [Runs.two])] "A" 2 2 3 = Return self /\
    in_range self 2 /\
    candidate_fails (Runs.only 3) self 2 /\
    SelectorBIC_select (Runs.only 3) self =
      Return (fst (bic_search (Runs.only 3) self (py_range 2 2 ++ py_range 3 4))) /\
    SelectorDIC_select (Runs.only 3) self =
      Return (fst (dic_search (Runs.only 3) self (py_range 2 2 ++ py_range 3 4))).
Proof.
  eexists. split; [reflexivity |].
  match goal with
  | |- in_range ?s _ /\ _ =>
      assert (H1 : in_range s 2) by (unfold in_range; simpl; lia);
      assert (H2 : candidate_fails (Runs.only 3) s 2)
        by (exists AttributeError; vm_compute; reflexivity);
      exact (conj H1 (conj H2
               (@select_skips_failing_candidate (Runs.only 3) s 2%Z H1 H2)))
  end.
Defined.

(** X6 at the range 3..3 with [n_constant = 3]. *)
Lemma SelectorBIC_single_candidate_witness :
  exists self,
    Runs.selector [("A"%string, [Runs.one])] "A" 3 3 3 = Return self /\
    bic_candidate Runs.flat_np self 3 = Return (Some 3%Z, npfloat 6) /\
    SelectorBIC_select Runs.flat_np self = SelectorConstant_select Runs.flat_np self.
Proof.
  eexists. split; [reflexivity |].
  split; [vm_compute; reflexivity |].
  apply (@SelectorBIC_single_candidate Runs.flat_np _ (Some 3%Z) (npfloat 6)).
  - reflexivity.
  - reflexivity.
  - vm_compute. reflexivity.
  - vm_compute. reflexivity.
Defined.

(** X7 at the word [A] alone and beside the word [B], with two values of
    [n_constant] and [verbose] set. *)
Lemma SelectorBIC_select_frame_witness :
  exists self1 self2,
    Runs.verbose_selector [("A"%string, [Runs.one])] "A" 3 2 3 = Return self1 /\
    Runs.verbose_selector [("A"%string, [Runs.one]); ("B"%string, [Runs.two])]
      "A" 7 2 3 = Return self2 /\
    verbose self1 = true /\ this_word self1 = this_word self2 /\
    SelectorBIC_select Runs.ascii_flat self1
      = SelectorBIC_select Runs.ascii_flat self2.
Proof.
  eexists. eexists. split; [reflexivity |]. split; [reflexivity |].
  split; [reflexivity |]. split; [reflexivity |].
  apply SelectorBIC_select_frame; reflexivity.
Defined.


(** X8 at the words [A] and [B] where [B] has no [(X, lengths)] entry. *)
Lemma SelectorDIC_select_missing_word_witness :
  exists self,
    ModelSelector_init
      [("A"%string, [Runs.one]); ("B"%string, [Runs.two])]
      [("A"%string, Table.stack [Runs.one])] "A" 3 2 3 14 false = Return self /\
    In "B"%string (dict_keys (words self)) /\
    ~ In "B"%string (dict_keys (hwords self)) /\
    SelectorDIC_select Runs.flat_np self = Return None.
Proof.
  eexists. split; [reflexivity |].
  assert (Hin : In "B"%string (dict_keys [("A"%string, [Runs.one]); ("B"%string, [Runs.two])])).
  { simpl. right. left. reflexivity. }
  assert (Hmiss : ~ In "B"%string (dict_keys [("A"%string, Table.stack [Runs.one])])).
  { simpl. intros [H | []]. discriminate H. }
  split; [exact Hin |]. split; [exact Hmiss |].
  apply (@SelectorDIC_select_missing_word Runs.flat_np _ "B"%string); assumption.
Defined.

(** X11 at two and three states with one feature. *)
Lemma bic_params_increasing_witness :
  exists self,
    Runs.selector [("A"%string, [Runs.one])] "A" 3 2 3 = Return self /\
    (0 <= bic_params self 2 < bic_params self 3)%Z.
Proof.
  eexists. split; [reflexivity |].
  apply bic_params_increasing; simpl; lia.
Defined.

(** X12 at the words [A] and [B]: two scores are added for the two
    words. *)
Lemma dic_candidate_formula_witness :
  exists self,
    Runs.selector [("A"%string, [Runs.one]); ("B"%string, [Runs.two])] "A" 3 2 3
      = Return self /\
    dic_candidate Runs.crossed self 2 = Return (Some 2%Z, npfloat 20) /\
    exists logL scores mean,
      score_of Runs.crossed (Some 2%Z) (X self) (lengths self) = Return logL /\
      List.length scores = 2%nat /\
      Num.truediv_int (fold_left Num.add scores (pyfloat 0)) 1 = Return mean /\
      npfloat 20 = Num.sub logL mean.
Proof.
  eexists. split; [reflexivity |].
  assert (Hc : dic_candidate Runs.crossed
                 (mk_ModelSelector
                    (fst (Runs.dataset [("A"%string, [Runs.one]); ("B"%string, [Runs.two])]))
                    (snd (Runs.dataset [("A"%string, [Runs.one]); ("B"%string, [Runs.two])]))
                    [Runs.one] (fst (Table.stack [Runs.one]))
                    (snd (Table.stack [Runs.one])) "A" 3 2 3 14 false) 2
               = Return (Some 2%Z, npfloat 20)).
  { vm_compute. reflexivity. }
  split; [exact Hc |].
  destruct (dic_candidate_formula _ _ _ Hc)
    as (logL & scores & mean & Hm & Hs & _ & Hlen & Hmean & Hd).
  exists logL, scores, mean.
  split; [exact Hs |]. split; [exact Hlen |]. split; [exact Hmean | exact Hd].
Defined.

(** X13 at two test items of which the second has no entry. *)
Lemma recognize_missing_Xlengths_witness :
  In 1%Z (map fst [(0%Z, [Runs.one]); (1%Z, [Runs.one])]) /\
  ~ In 1%Z (map fst [(0%Z, Table.stack [Runs.one])]) /\
  recognize Runs.spec_example [("A"%string, Some 2%Z)]
    (mk_SinglesData [(0%Z, [Runs.one]); (1%Z, [Runs.one])]
       [(0%Z, Table.stack [Runs.one])])
  = Raise KeyError.
Proof.
  assert (Hin : In 1%Z (map fst [(0%Z, [Runs.one]); (1%Z, [Runs.one])])).
  { simpl. right. left. reflexivity. }
  assert (Hmiss : ~ In 1%Z (map fst [(0%Z, Table.stack [Runs.one])])).
  { simpl. intros [H | []]. discriminate H. }
  split; [exact Hin |]. split; [exact Hmiss |].
  apply (@recognize_missing_Xlengths Runs.spec_example [("A"%string, Some 2%Z)]
           (mk_SinglesData [(0%Z, [Runs.one]); (1%Z, [Runs.one])]
              [(0%Z, Table.stack [Runs.one])]) 1%Z Hin Hmiss).
Defined.

(** X15 at the example of the specification, looking [B] up. *)
Lemma recognize_prob_lookup_witness :
  dict_get
    (prob Runs.spec_example
       [("A"%string, Some 2%Z); ("B"%string, Some 3%Z); ("C"%string, Some 4%Z)]
       (fst (Table.stack [Runs.one])) (snd (Table.stack [Runs.one])))
    "B"
  = Return (npfloat (-30)).
Proof.
  rewrite (@recognize_prob_lookup Runs.spec_example
             [("A"%string, Some 2%Z); ("B"%string, Some 3%Z); ("C"%string, Some 4%Z)]
             (fst (Table.stack [Runs.one])) (snd (Table.stack [Runs.one]))
             "B"%string (Some 3%Z)).
  - vm_compute. reflexivity.
  - repeat constructor; simpl; intros H;
      repeat (destruct H as [H | H]; [discriminate H |]); exact H.
  - simpl. right. left. reflexivity.
Defined.

(** X16 at one test item. *)
Lemma recognize_no_models_witness :
  recognize Runs.spec_example [] Runs.one_item = Return ([[]], [""%string]).
Proof.
  rewrite recognize_no_models; [reflexivity |].
  simpl. intros key H. exact H.
Defined.

(** X17 at a mapping where the model of [C] is [None]. *)
Lemma recognize_never_guesses_failed_witness :
  guess Runs.spec_example [("A"%string, Some 2%Z); ("C"%string, None)]
    (fst (Table.stack [Runs.one])) (snd (Table.stack [Runs.one])) <> "C"%string.
Proof.
  apply (@recognize_never_guesses_failed Runs.spec_example
           [("A"%string, Some 2%Z); ("C"%string, None)]
           (fst (Table.stack [Runs.one])) (snd (Table.stack [Runs.one]))
           "C"%string None).
  - repeat constructor; simpl; intros H;
      repeat (destruct H as [H | H]; [discriminate H |]); exact H.
  - simpl. right. left. reflexivity.
  - vm_compute. reflexivity.
  - discriminate.
Defined.
